(** * hindi_transcription.py: a shallow embedding and its contract

    The script validates one audio path, ensures the folder [transcribed],
    selects a device, builds a speech-recognition pipeline, runs it, and
    writes the text to a timestamped file.  Every call that leaves the
    script (filesystem, clock, torch, transformers, stdout) is an explicit
    step of a state-and-exception monad that logs an event, so that the
    order and the number of effects can be stated.

    Python text is modelled by Rocq strings read as the UTF-8 bytes of the
    text; a file opened with [encoding="utf-8"] therefore holds exactly the
    string that is written to it. *)

From stdpp Require Import prelude strings gmap.
From Stdlib Require Import ZArith Ascii String Lia Sorted.

Local Open Scope string_scope.

(** ** Python strings *)

Module Str.

Definition quote1 : ascii := Ascii.ascii_of_nat 39.
Definition quote2 : ascii := Ascii.ascii_of_nat 34.
Definition backslash : ascii := Ascii.ascii_of_nat 92.

Definition ascii_eqb (a b : ascii) : bool := Ascii.eqb a b.
Arguments ascii_eqb : simpl never.

(** [c in s] for a one-character [c]. *)
Fixpoint contains_char (c : ascii) (s : string) : bool :=
  match s with
  | EmptyString => false
  | String a s' => ascii_eqb a c || contains_char c s'
  end.

(** [s.startswith(p)] *)
Fixpoint startswith (p s : string) : bool :=
  match p, s with
  | EmptyString, _ => true
  | String a p', String b s' => ascii_eqb a b && startswith p' s'
  | String _ _, EmptyString => false
  end.

(** [s.endswith(sep)] for a one-character [sep]. *)
Fixpoint endswith_char (c : ascii) (s : string) : bool :=
  match s with
  | EmptyString => false
  | String a EmptyString => ascii_eqb a c
  | String _ s' => endswith_char c s'
  end.

(** [s.split(sep)] for a one-character [sep]: never the empty list. *)
Fixpoint split (sep : ascii) (s : string) : list string :=
  match s with
  | EmptyString => [EmptyString]
  | String a s' =>
      if ascii_eqb a sep then EmptyString :: split sep s'
      else match split sep s' with
           | [] => [String a EmptyString]
           | w :: ws => String a w :: ws
           end
  end.

(** [s.split(sep, 1)] when [sep in s]: the text before the first [sep] and
    the text after it; [None] when [sep] does not occur. *)
Fixpoint split_once (sep : ascii) (s : string) : option (string * string) :=
  match s with
  | EmptyString => None
  | String a s' =>
      if ascii_eqb a sep then Some (EmptyString, s')
      else match split_once sep s' with
           | Some (l, r) => Some (String a l, r)
           | None => None
           end
  end.

(** [s.rfind(c)]: index of the last occurrence, [None] for Python's -1. *)
Fixpoint rfind (c : ascii) (s : string) : option nat :=
  match s with
  | EmptyString => None
  | String a s' =>
      match rfind c s' with
      | Some i => Some (S i)
      | None => if ascii_eqb a c then Some 0 else None
      end
  end.

(** [s[:n]] *)
Fixpoint take (n : nat) (s : string) : string :=
  match n, s with
  | S n', String a s' => String a (take n' s')
  | _, _ => EmptyString
  end.

(** [sep.join(l)] *)
Fixpoint join (sep : string) (l : list string) : string :=
  match l with
  | [] => EmptyString
  | [x] => x
  | x :: rest => x ++ sep ++ join sep rest
  end.

Definition hex_digit (n : nat) : ascii :=
  Ascii.ascii_of_nat (if n <? 10 then 48 + n else 87 + n)%nat.

(** One character of [repr(s)] with quote character [q]. *)
Definition repr_char (q a : ascii) : string :=
  let n := Ascii.nat_of_ascii a in
  if ascii_eqb a backslash then String backslash (String backslash EmptyString)
  else if ascii_eqb a q then String backslash (String q EmptyString)
  else if (n =? 10)%nat then String backslash "n"
  else if (n =? 13)%nat then String backslash "r"
  else if (n =? 9)%nat then String backslash "t"
  else if ((n <? 32) || (n =? 127))%nat then
    String backslash (String "x" (String (hex_digit (n / 16))
                                   (String (hex_digit (n mod 16)) EmptyString)))
  else String a EmptyString.

Fixpoint repr_body (q : ascii) (s : string) : string :=
  match s with
  | EmptyString => EmptyString
  | String a s' => repr_char q a ++ repr_body q s'
  end.

(** [repr(s)]: single quotes unless the text has a single quote and no
    double quote; backslash, the quote and control characters escaped.
    Printable non-ASCII text is kept as it is. *)
Definition repr (s : string) : string :=
  let q := if contains_char quote1 s && negb (contains_char quote2 s)
           then quote2 else quote1 in
  String q (repr_body q s ++ String q EmptyString).

End Str.

(** ** Python exceptions and values *)

(** The part of the exception hierarchy the script can tell apart.  All of
    these derive from [Exception]. *)
Inductive exn_class : Type :=
  | ExceptionC
  | OSErrorC
  | FileNotFoundErrorC
  | FileExistsErrorC
  | IsADirectoryErrorC
  | NotADirectoryErrorC
  | PermissionErrorC
  | LookupErrorC
  | KeyErrorC
  | TypeErrorC
  | ValueErrorC
  | RuntimeErrorC
  | UserDefined (name : string) (base : exn_class).

(** The nearest built-in ancestor of a class. *)
Fixpoint builtin_base (c : exn_class) : exn_class :=
  match c with
  | UserDefined _ b => builtin_base b
  | _ => c
  end.

(** [issubclass(c, FileNotFoundError)] *)
Definition is_FileNotFoundError (c : exn_class) : bool :=
  match builtin_base c with
  | FileNotFoundErrorC => true
  | _ => false
  end.

(** [issubclass(c, OSError)] *)
Definition is_OSError (c : exn_class) : bool :=
  match builtin_base c with
  | OSErrorC | FileNotFoundErrorC | FileExistsErrorC | IsADirectoryErrorC
  | NotADirectoryErrorC | PermissionErrorC => true
  | _ => false
  end.

(** A raised exception: its class and [str(e)]. *)
Record exn : Type := Exn { exn_cls : exn_class; exn_str : string }.

(** [OSError(errno, strerror, filename)], whose [str] is
    [[Errno n] strerror: 'filename']. *)
Definition os_error (c : exn_class) (errno strerror filename : string) : exn :=
  Exn c ("[Errno " ++ errno ++ "] " ++ strerror ++ ": " ++ Str.repr filename).

#[warnings="-register-all"]
Inductive pyval : Type :=
  | PyNone
  | PyInt (z : Z)
  | PyStr (s : string)
  | PyList (items : list pyval)
  | PyDict (d : gmap string pyval).

Definition type_name (v : pyval) : string :=
  match v with
  | PyNone => "NoneType"
  | PyInt _ => "int"
  | PyStr _ => "str"
  | PyList _ => "list"
  | PyDict _ => "dict"
  end.

(** [v[key]] for a string [key]. *)
Definition subscript (v : pyval) (key : string) : exn + pyval :=
  match v with
  | PyDict d =>
      match d !! key with
      | Some x => inr x
      | None => inl (Exn KeyErrorC (Str.repr key))
      end
  | PyList _ =>
      inl (Exn TypeErrorC "list indices must be integers or slices, not str")
  | PyStr _ =>
      inl (Exn TypeErrorC "string indices must be integers, not 'str'")
  | PyNone | PyInt _ =>
      inl (Exn TypeErrorC ("'" ++ type_name v ++ "' object is not subscriptable"))
  end.

(** ** Paths: [pathlib.Path(p).stem] and [os.path.join] on POSIX

    As in CPython 3.11: [PurePosixPath] splits the path at [/], drops
    empty components and [.], and takes the suffix from the last dot of
    the name that is neither its first nor its last character. *)

Module PosixPath.

Definition sep : ascii := Ascii.ascii_of_nat 47.
Definition dot : ascii := Ascii.ascii_of_nat 46.

(** A component that [parse_parts] keeps: neither empty nor [.]. *)
Definition kept_part (x : string) : bool :=
  negb (String.eqb x EmptyString) && negb (String.eqb x ".").

(** The parts of a path after the root: every component between
    separators, empty ones and [.] dropped. *)
Definition parts (p : string) : list string :=
  List.filter kept_part (Str.split sep p).

(** [Path(p).name]: the final component, [''] when there is none. *)
Definition name (p : string) : string := List.last (parts p) EmptyString.

(** [Path(p).stem]: the name minus its last suffix; a leading or a trailing
    dot is not a suffix separator. *)
Definition stem (p : string) : string :=
  let n := name p in
  match Str.rfind dot n with
  | Some i => if (0 <? i)%nat && (i <? String.length n - 1)%nat
              then Str.take i n else n
  | None => n
  end.

(** [os.path.join(a, b)] *)
Definition join (a b : string) : string :=
  if Str.startswith (String sep EmptyString) b then b
  else if String.eqb a EmptyString || Str.endswith_char sep a then a ++ b
  else a ++ String sep EmptyString ++ b.

End PosixPath.

(** ** The clock: [datetime.datetime.now().strftime("%Y%m%d-%H%M%S")] *)

Module Clock.

Record datetime : Type := Datetime {
  year : N; month : N; day : N;
  hour : N; minute : N; second : N
}.

Definition digit (n : N) : ascii := Ascii.ascii_of_N (48 + n mod 10).
Arguments digit : simpl never.

(** The last [w] decimal digits of [n], zero-padded on the left. *)
Fixpoint dec_pad (w : nat) (n : N) : string :=
  match w with
  | O => EmptyString
  | S w' => dec_pad w' (n / 10) ++ String (digit n) EmptyString
  end.

(** [d.strftime("%Y%m%d-%H%M%S")].  [%Y] is written with four digits, which
    is what every platform prints for the years 1000 to 9999. *)
Definition strftime (d : datetime) : string :=
  dec_pad 4 (year d) ++ dec_pad 2 (month d) ++ dec_pad 2 (day d) ++ "-" ++
  dec_pad 2 (hour d) ++ dec_pad 2 (minute d) ++ dec_pad 2 (second d).

Definition is_digit (a : ascii) : bool :=
  let n := Ascii.nat_of_ascii a in ((48 <=? n) && (n <=? 57))%nat.
Arguments is_digit : simpl never.


End Clock.

(** ** The command line: [argparse] for this parser

    [main] builds a parser with the default help option ([-h], [--help]) and
    one positional argument [audio_file], and calls [parse_args] on the
    arguments after the program name.  The definitions follow
    [ArgumentParser._parse_optional], [_get_option_tuples] and
    [_parse_known_args] of CPython 3.11, specialised to that parser; in the
    pattern of negative numbers [\d] is read as an ASCII digit. *)

Module Argparse.

Definition dash : ascii := Ascii.ascii_of_nat 45.
Definition newline : string := String (Ascii.ascii_of_nat 10) EmptyString.

(** The keys of [_option_string_actions], in registration order; both map
    to the help action. *)
Definition option_strings : list string := ["-h"; "--help"].

Definition is_option_string (s : string) : bool :=
  existsb (String.eqb s) option_strings.

(** What [_parse_optional] returns for an option-like argument: the action
    (the help action, or none), and for the help action the option string
    and the explicit argument. *)
Inductive option_tuple : Type :=
  | HelpOption (option_string : string) (explicit_arg : option string)
  | UnknownOption.

Definition tuple_option_string (arg : string) (t : option_tuple) : string :=
  match t with
  | HelpOption os _ => os
  | UnknownOption => arg
  end.

(** [arg[1] in prefix_chars] *)
Definition second_is_dash (arg : string) : bool :=
  match arg with
  | String _ (String c _) => Str.ascii_eqb c dash
  | _ => false
  end.

(** [arg[2:]] *)
Definition drop2 (arg : string) : string :=
  match arg with
  | String _ (String _ r) => r
  | _ => EmptyString
  end.

Definition get_option_tuples (arg : string) : list option_tuple :=
  if second_is_dash arg then
    let '(option_prefix, explicit_arg) :=
      match Str.split_once "=" arg with
      | Some (l, r) => (l, Some r)
      | None => (arg, None)
      end in
    flat_map (fun os => if Str.startswith option_prefix os
                        then [HelpOption os explicit_arg] else [])
             option_strings
  else
    flat_map (fun os => if String.eqb os (Str.take 2 arg)
                        then [HelpOption os (Some (drop2 arg))]
                        else if Str.startswith arg os
                             then [HelpOption os None] else [])
             option_strings.

Fixpoint skip_digits (s : string) : string :=
  match s with
  | String a r => if Clock.is_digit a then skip_digits r else s
  | EmptyString => s
  end.

Definition starts_with_digit (s : string) : bool :=
  match s with
  | String a _ => Clock.is_digit a
  | EmptyString => false
  end.

(** Where [$] matches: at the end, or before a final newline. *)
Definition at_end (s : string) : bool :=
  String.eqb s EmptyString || String.eqb s newline.

(** [_negative_number_matcher.match(arg)], the pattern being
    [^-\d+$|^-\d*\.\d+$]. *)
Definition is_negative_number (arg : string) : bool :=
  match arg with
  | String c body =>
      Str.ascii_eqb c dash &&
      ((starts_with_digit body && at_end (skip_digits body))
       || match skip_digits body with
          | String d frac =>
              Str.ascii_eqb d PosixPath.dot && starts_with_digit frac
              && at_end (skip_digits frac)
          | EmptyString => false
          end)
  | EmptyString => false
  end.

(** [_parse_optional]: [inr None] for a positional argument, [inr (Some t)]
    for an option, [inl message] when it calls [self.error]. *)
Definition parse_optional (arg : string) : string + option option_tuple :=
  match arg with
  | EmptyString => inr None
  | String c _ =>
      if negb (Str.ascii_eqb c dash) then inr None
      else if is_option_string arg then inr (Some (HelpOption arg None))
      else if (String.length arg =? 1)%nat then inr None
      else
        let explicit :=
          match Str.split_once "=" arg with
          | Some (os, ea) =>
              if is_option_string os then Some (HelpOption os (Some ea))
              else None
          | None => None
          end in
        match explicit with
        | Some t => inr (Some t)
        | None =>
            match get_option_tuples arg with
            | [] =>
                if is_negative_number arg then inr None
                else if Str.contains_char " " arg then inr None
                else inr (Some UnknownOption)
            | [t] => inr (Some t)
            | ts =>
                inl ("ambiguous option: " ++ arg ++ " could match "
                     ++ Str.join ", " (map (tuple_option_string arg) ts))
            end
        end
  end.

(** The argument strings as [_parse_known_args] sees them: before the first
    [--] each one with its option tuple ([None]: pattern letter A, [Some]:
    letter O); the strings after the first [--], all of letter A. *)
Record classified : Type := Classified {
  before_sep : list (string * option option_tuple);
  after_sep : option (list string)
}.

Fixpoint classify (argv : list string) : string + classified :=
  match argv with
  | [] => inr (Classified [] None)
  | a :: rest =>
      if String.eqb a "--" then inr (Classified [] (Some rest))
      else match parse_optional a with
           | inl msg => inl msg
           | inr t =>
               match classify rest with
               | inl msg => inl msg
               | inr c => inr (Classified ((a, t) :: before_sep c) (after_sep c))
               end
           end
  end.

(** How parsing ends: the namespace, the help action, or [ArgumentError] /
    [self.error] with its message. *)
Inductive outcome : Type :=
  | Namespace (audio_file : string)
  | Help
  | Error (message : string).

Definition ignored_explicit (explicit_arg : string) : outcome :=
  Error ("argument -h/--help: ignored explicit argument "
         ++ Str.repr explicit_arg).

(** The loop of [consume_optional] on an explicit argument of the help
    action, which takes no argument: a single-dash option passes the tail
    on as further single-dash options. *)
Fixpoint consume_explicit (single_dash : bool) (explicit_arg : string) : outcome :=
  match explicit_arg with
  | EmptyString => ignored_explicit explicit_arg
  | String c rest =>
      if single_dash then
        if is_option_string (String dash (String c EmptyString)) then
          match rest with
          | EmptyString => Help
          | _ => consume_explicit (negb (Str.ascii_eqb c dash)) rest
          end
        else ignored_explicit explicit_arg
      else ignored_explicit explicit_arg
  end.

Definition consume_optional (option_string : string)
    (explicit_arg : option string) : outcome :=
  match explicit_arg with
  | None => Help
  | Some e => consume_explicit (negb (second_is_dash option_string)) e
  end.

(** The checks after the loop: required arguments first, then the extras
    ([parse_args]). *)
Definition finish (positional : option string) (extras : list string) : outcome :=
  match positional with
  | None => Error "the following arguments are required: audio_file"
  | Some v =>
      match extras with
      | [] => Namespace v
      | _ => Error ("unrecognized arguments: " ++ Str.join " " extras)
      end
  end.

(** [consume_positionals] past the last option.  The pattern of
    [audio_file] is one letter A with any [--] before and after it: one
    argument together with a [--] next to it, which [_get_values]
    removes. *)
Definition consume_tail (tail : list string) (after : option (list string))
    (positional : option string) (extras : list string) : outcome :=
  let sep_on := match after with Some l => "--" :: l | None => [] end in
  match positional with
  | Some _ => finish positional (extras ++ tail ++ sep_on)
  | None =>
      match tail, after with
      | [a], Some l => finish (Some a) (extras ++ l)
      | a :: more, _ => finish (Some a) (extras ++ more ++ sep_on)
      | [], Some (b :: l) => finish (Some b) (extras ++ l)
      | [], _ => finish None (extras ++ sep_on)
      end
  end.

Definition is_option (x : string * option option_tuple) : bool :=
  match snd x with Some _ => true | None => false end.

(** The loop of [_parse_known_args]: while an option is still ahead,
    positionals and options are consumed in turn; an argument that no
    positional takes goes to the extras. *)
Fixpoint consume (items : list (string * option option_tuple))
    (after : option (list string)) (positional : option string)
    (extras : list string) : outcome :=
  match items with
  | [] => consume_tail [] after positional extras
  | (s, Some UnknownOption) :: rest =>
      consume rest after positional (extras ++ [s])
  | (s, Some (HelpOption os ea)) :: rest => consume_optional os ea
  | (s, None) :: rest =>
      if existsb is_option rest then
        match positional with
        | None => consume rest after (Some s) extras
        | Some _ => consume rest after positional (extras ++ [s])
        end
      else consume_tail (map fst items) after positional extras
  end.

Definition parse_known (argv : list string) : outcome :=
  match classify argv with
  | inl msg => Error msg
  | inr c => consume (before_sep c) (after_sep c) None []
  end.

(** The arguments that stand for positionals (pattern letter A): the
    ones [_parse_optional] does not read as options, and everything after
    the first [--]. *)
Definition is_positional (arg : string) : bool :=
  match parse_optional arg with
  | inr None => true
  | _ => false
  end.




Section Parser.
Variables prog description audio_file_help : string.

Definition format_usage : string :=
  "usage: " ++ prog ++ " [-h] audio_file" ++ newline.

Definition format_help : string :=
  format_usage ++ newline ++ description ++ newline ++ newline
  ++ "positional arguments:" ++ newline
  ++ "  audio_file  " ++ audio_file_help ++ newline ++ newline
  ++ "options:" ++ newline
  ++ "  -h, --help  show this help message and exit" ++ newline.

(** What [self.error(message)] writes to stderr before [exit(2)]. *)
Definition error_text (message : string) : string :=
  format_usage ++ prog ++ ": error: " ++ message ++ newline.

(** [parse_args] either returns the namespace or leaves the process:
    status 0 with the help on stdout, status 2 with the usage and the
    error on stderr. *)
Inductive result : Type :=
  | Parsed (audio_file : string)
  | HelpExit (stdout_text : string)
  | ErrorExit (stderr_text : string).

Definition parse_args (argv : list string) : result :=
  match parse_known argv with
  | Namespace v => Parsed v
  | Help => HelpExit format_help
  | Error msg => ErrorExit (error_text msg)
  end.
End Parser.

End Argparse.

(** ** The world outside the script *)

(** What a path names in the filesystem.  The store is keyed by the path
    strings the script hands to the operating system. *)
Inductive node : Type :=
  | File (content : string)
  | Directory.

(** The keyword arguments of [transformers.pipeline]. *)
Record pipeline_args : Type := PipelineArgs {
  task : string;
  model : string;
  chunk_length_s : Z;
  device : string
}.

(** The system calls behind [os.makedirs] and [open] / [write], which the
    environment may refuse (permissions, a full disk, a folder removed in
    between, ...). *)
Inductive os_call : Type :=
  | Mkdir (path : string)
  | Open (path : string)
  | Write (path data : string).

(** A refused system call raises [OSError] or one of its subclasses. *)
Inductive os_error_kind : Type :=
  | PlainOSError
  | NotFound
  | Exists
  | IsADirectory
  | NotADirectory
  | Permission.

Definition os_error_class (k : os_error_kind) : exn_class :=
  match k with
  | PlainOSError => OSErrorC
  | NotFound => FileNotFoundErrorC
  | Exists => FileExistsErrorC
  | IsADirectory => IsADirectoryErrorC
  | NotADirectory => NotADirectoryErrorC
  | Permission => PermissionErrorC
  end.

Record os_failure : Type := OsFailure {
  failure_kind : os_error_kind;
  failure_str : string
}.

Definition os_raised (f : os_failure) : exn :=
  Exn (os_error_class (failure_kind f)) (failure_str f).

(** Everything the script asks of its environment, apart from the files. *)
Record World : Type := {
  cuda_is_available : bool;
  pipeline_load : pipeline_args -> option exn;
  pipeline_call : pipeline_args -> string -> exn + pyval;
  datetime_now : Clock.datetime;
  os_fault : os_call -> option os_failure
}.

Inductive stream : Type := Stdout | Stderr.

(** One entry per call that leaves the script, in the order of the calls. *)
Inductive event : Type :=
  | EvIsFile (path : string)
  | EvMakedirs (name : string)
  | EvPrint (line : string)
  | EvCudaIsAvailable
  | EvPipeline (args : pipeline_args)
  | EvPipelineCall (args : pipeline_args) (audio : string)
  | EvNow
  | EvOpen (path mode encoding : string)
  | EvWrite (path data : string)
  | EvClose (path : string)
  | EvArgparse (out : stream) (text : string).

Record state : Type := State {
  fs : gmap string node;
  trace : list event
}.

(** The start of a run: the files as they are, nothing done yet. *)
Definition boot (files : gmap string node) : state := State files [].

(** ** The monad of the script: state and exceptions *)

Definition M (A : Type) : Type := state -> (exn + A) * state.

Definition ret {A : Type} (a : A) : M A := fun s => (inr a, s).

Definition raise {A : Type} (e : exn) : M A := fun s => (inl e, s).

Definition bind {A B : Type} (m : M A) (k : A -> M B) : M B :=
  fun s => match m s with
           | (inr a, s') => k a s'
           | (inl e, s') => (inl e, s')
           end.

(** [try: m  except Exception as e: h e] *)
Definition try_except {A : Type} (m : M A) (h : exn -> M A) : M A :=
  fun s => match m s with
           | (inr a, s') => (inr a, s')
           | (inl e, s') => h e s'
           end.

(** [try: m  finally: cleanup] *)
Definition try_finally {A : Type} (m : M A) (cleanup : M unit) : M A :=
  fun s => match m s with
           | (r, s') =>
               match cleanup s' with
               | (inr _, s'') => (r, s'')
               | (inl e, s'') => (inl e, s'')
               end
           end.

Declare Scope py_scope.
Delimit Scope py_scope with py.
Notation "x <- m ;; k" := (bind m (fun x => k))
  (at level 100, m at next level, right associativity) : py_scope.
Notation "m ;; k" := (bind m (fun _ => k))
  (at level 100, right associativity) : py_scope.
Local Open Scope py_scope.

Definition emit (e : event) : M unit :=
  fun s => (inr tt, State (fs s) (trace s ++ [e])).

Definition get_files : M (gmap string node) := fun s => (inr (fs s), s).

Definition put_file (path : string) (n : node) : M unit :=
  fun s => (inr tt, State (<[path := n]> (fs s)) (trace s)).

Definition lift {A : Type} (r : exn + A) : M A :=
  match r with
  | inl e => raise e
  | inr a => ret a
  end.

(** ** The library calls of the script *)

Section Calls.
Variable w : World.

Definition print (line : string) : M unit := emit (EvPrint line).

Definition isfile (files : gmap string node) (path : string) : bool :=
  match files !! path with
  | Some (File _) => true
  | _ => false
  end.

Definition isdir (files : gmap string node) (path : string) : bool :=
  match files !! path with
  | Some Directory => true
  | _ => false
  end.

(** [os.path.isfile(path)] *)
Definition os_path_isfile (path : string) : M bool :=
  emit (EvIsFile path) ;;
  files <- get_files ;;
  ret (isfile files path).

(** [os.mkdir(name)] in the current directory. *)
Definition os_mkdir (name : string) : M unit :=
  match os_fault w (Mkdir name) with
  | Some f => raise (os_raised f)
  | None =>
      files <- get_files ;;
      match files !! name with
      | Some _ => raise (os_error FileExistsErrorC "17" "File exists" name)
      | None => put_file name Directory
      end
  end.

(** [os.makedirs(name, exist_ok=True)] for a name of one component: any
    [OSError] of [mkdir] is dropped when the name is a directory. *)
Definition os_makedirs (name : string) : M unit :=
  emit (EvMakedirs name) ;;
  try_except (os_mkdir name)
    (fun e =>
       if is_OSError (exn_cls e) then
         files <- get_files ;;
         if isdir files name then ret tt else raise e
       else raise e).

(** [torch.cuda.is_available()] *)
Definition torch_cuda_is_available : M bool :=
  emit EvCudaIsAvailable ;;
  ret (cuda_is_available w).

(** [pipeline(task=..., model=..., chunk_length_s=..., device=...)]; the
    pipeline object is represented by its arguments. *)
Definition pipeline (args : pipeline_args) : M pipeline_args :=
  emit (EvPipeline args) ;;
  match pipeline_load w args with
  | Some e => raise e
  | None => ret args
  end.

(** [pipe(audio)] *)
Definition call_pipe (pipe : pipeline_args) (audio : string) : M pyval :=
  emit (EvPipelineCall pipe audio) ;;
  lift (pipeline_call w pipe audio).

(** [datetime.datetime.now()] *)
Definition datetime_datetime_now : M Clock.datetime :=
  emit EvNow ;;
  ret (datetime_now w).

(** [open(path, "w", encoding="utf-8")]: the file is created or truncated.
    The folder of the path exists when the script gets here; a folder that
    vanished in between is one of the faults of the environment. *)
Definition open_w (path : string) : M string :=
  emit (EvOpen path "w" "utf-8") ;;
  match os_fault w (Open path) with
  | Some f => raise (os_raised f)
  | None =>
      files <- get_files ;;
      if isdir files path
      then raise (os_error IsADirectoryErrorC "21" "Is a directory" path)
      else (put_file path (File EmptyString) ;; ret path)
  end.

(** How [write] names the type of a wrong argument. *)
Definition argument_type_name (v : pyval) : string :=
  match v with
  | PyNone => "None"
  | _ => type_name v
  end.

(** [f.write(v)] on a text file: only [str] is accepted; a refused write
    leaves the file as [open] made it (what was written of the text before
    the refusal is not modelled). *)
Definition file_write (f : string) (v : pyval) : M unit :=
  match v with
  | PyStr data =>
      emit (EvWrite f data) ;;
      match os_fault w (Write f data) with
      | Some failure => raise (os_raised failure)
      | None => put_file f (File data)
      end
  | _ => raise (Exn TypeErrorC
                  ("write() argument must be str, not "
                   ++ argument_type_name v))
  end.

Definition file_close (f : string) : M unit := emit (EvClose f).

(** [with open(path, "w", encoding="utf-8") as f: body f] *)
Definition with_open_w {A : Type} (path : string) (body : string -> M A) : M A :=
  f <- open_w path ;;
  try_finally (body f) (file_close f).

(** ** The script *)

Definition model_id : string := "vasista22/whisper-hindi-large-v2".

Definition process_hindi_audio (audio_file_path : string) : M string :=
  exists_ <- os_path_isfile audio_file_path ;;
  (if negb exists_
   then raise (Exn FileNotFoundErrorC
                 ("The file '" ++ audio_file_path ++ "' does not exist."))
   else ret tt) ;;
  os_makedirs "transcribed" ;;
  print "Transcription folder 'transcribed' is ready." ;;
  print ("Loading model " ++ model_id ++ "...") ;;
  available <- torch_cuda_is_available ;;
  let device := if available then "cuda" else "cpu" in
  print ("Using device: " ++ device) ;;
  pipe <- pipeline (PipelineArgs "automatic-speech-recognition" model_id 30 device) ;;
  print ("Transcribing " ++ audio_file_path ++ "...") ;;
  result <- call_pipe pipe audio_file_path ;;
  transcription <- lift (subscript result "text") ;;
  now <- datetime_datetime_now ;;
  let timestamp := Clock.strftime now in
  let audio_filename := PosixPath.stem audio_file_path in
  let output_filename := audio_filename ++ "-" ++ timestamp ++ ".txt" in
  let output_path := PosixPath.join "transcribed" output_filename in
  with_open_w output_path (fun f => file_write f transcription) ;;
  ret output_path.

Definition saved_line (output_path : string) : string :=
  "✓ Transcription saved to: " ++ output_path.

Definition not_found_line (e : exn) : string := "Error: " ++ exn_str e.

Definition generic_line (e : exn) : string :=
  "An error occurred during transcription: " ++ exn_str e.

(** The line [main] prints for an exception of [process_hindi_audio]: the
    first [except] clause that matches its class. *)
Definition error_line (e : exn) : string :=
  if is_FileNotFoundError (exn_cls e) then not_found_line e
  else generic_line e.

(** The [try] statement of [main]: the exit status of the process and the
    final state.  Falling off the end of [main] is status 0; both handlers
    end in [sys.exit(1)]. *)
Definition main_try (audio_file : string) (s : state) : Z * state :=
  match process_hindi_audio audio_file s with
  | (inr output_path, s1) =>
      (0%Z, snd (print (saved_line output_path) s1))
  | (inl e, s1) =>
      (1%Z, snd (print (error_line e) s1))
  end.

Definition description : string :=
  "Transcribe Hindi audio files using Whisper.".

Definition audio_file_help : string :=
  "Path to the Hindi audio file to transcribe".

Definition parse (prog : string) (argv : list string) : Argparse.result :=
  Argparse.parse_args prog description audio_file_help argv.

(** [main()], with [sys.argv] split into the program name and the rest. *)
Definition main (prog : string) (argv : list string) (s : state) : Z * state :=
  match parse prog argv with
  | Argparse.Parsed audio_file => main_try audio_file s
  | Argparse.HelpExit text =>
      (0%Z, snd (emit (EvArgparse Stdout text) s))
  | Argparse.ErrorExit text =>
      (2%Z, snd (emit (EvArgparse Stderr text) s))
  end.

End Calls.

(** ** Observations on a run *)

(** The device the script selects. *)
Definition the_device (w : World) : string :=
  if cuda_is_available w then "cuda" else "cpu".

(** The pipeline the script builds. *)
Definition the_pipeline (w : World) : pipeline_args :=
  PipelineArgs "automatic-speech-recognition" model_id 30 (the_device w).

(** [transcribed/<stem>-<timestamp>.txt] *)
Definition output_path (w : World) (p : string) : string :=
  "transcribed/" ++ PosixPath.stem p ++ "-"
  ++ Clock.strftime (datetime_now w) ++ ".txt".

(** The files once the folder [transcribed] is there. *)
Definition with_folder (files : gmap string node) : gmap string node :=
  if isdir files "transcribed" then files
  else <["transcribed" := Directory]> files.

(** The events of a run that saves the text [t]. *)
Definition saved_trace (w : World) (p t : string) : list event :=
  [ EvIsFile p;
    EvMakedirs "transcribed";
    EvPrint "Transcription folder 'transcribed' is ready.";
    EvPrint ("Loading model " ++ model_id ++ "...");
    EvCudaIsAvailable;
    EvPrint ("Using device: " ++ the_device w);
    EvPipeline (the_pipeline w);
    EvPrint ("Transcribing " ++ p ++ "...");
    EvPipelineCall (the_pipeline w) p;
    EvNow;
    EvOpen (output_path w p) "w" "utf-8";
    EvWrite (output_path w p) t;
    EvClose (output_path w p);
    EvPrint (saved_line (output_path w p)) ].


Definition is_pipeline_event (e : event) : bool :=
  match e with
  | EvPipeline _ | EvPipelineCall _ _ => true
  | _ => false
  end.

Definition is_probe (e : event) : bool :=
  match e with
  | EvCudaIsAvailable => true
  | _ => false
  end.

(** No regular file was created or changed between two states of the
    filesystem. *)
Definition no_file_written (before after : gmap string node) : Prop :=
  forall q c, after !! q = Some (File c) -> before !! q = Some (File c).

(** The run the pipeline call of which returns a result with the text [t]:
    the input exists, the call is reached, and the environment answers. *)
Definition returns_text (w : World) (prog : string) (argv : list string)
    (files : gmap string node) (p t : string) : Prop :=
  parse prog argv = Argparse.Parsed p /\
  isfile files p = true /\
  EvPipelineCall (the_pipeline w) p
    ∈ trace (snd (main w prog argv (boot files))) /\
  exists result,
    pipeline_call w (the_pipeline w) p = inr result /\
    subscript result "text" = inr (PyStr t).



(** The unconditional reading of the failure contract: whatever
    [process_hindi_audio] raises after the input passed validation, the
    generic line is printed and no file is written. *)
Definition fails_generically (w : World) (prog : string)
    (argv : list string) (files : gmap string node) : Prop :=
  forall p e s1,
    parse prog argv = Argparse.Parsed p ->
    isfile files p = true ->
    process_hindi_audio w p (boot files) = (inl e, s1) ->
    main w prog argv (boot files)
    = (1%Z, State (fs s1) (trace s1 ++ [EvPrint (generic_line e)]))
    /\ no_file_written files (fs s1).



(** ** Bookkeeping of the parser *)



(** ** Scenarios *)

Definition script_name : string := "hindi_transcription.py".

Definition hindi_text : string := "नमस्ते दुनिया".

Definition no_fault : os_call -> option os_failure := fun _ => None.

(** The scenario of the specification: [speech.wav] exists, no GPU, the
    pipeline returns the text, the clock shows 2024-03-01 10:15:30. *)
Definition scenario_world : World := {|
  cuda_is_available := false;
  pipeline_load := fun _ => None;
  pipeline_call := fun _ _ => inr (PyDict {[ "text" := PyStr hindi_text ]});
  datetime_now := Clock.Datetime 2024 3 1 10 15 30;
  os_fault := no_fault
|}.

Definition scenario_files : gmap string node :=
  {[ "speech.wav" := File "RIFF" ]}.

Definition scenario_output : string :=
  "transcribed/speech-20240301-101530.txt".

(** The folder [transcribed] exists but cannot be written to. *)
Definition readonly_world : World := {|
  cuda_is_available := false;
  pipeline_load := fun _ => None;
  pipeline_call := fun _ _ => inr (PyDict {[ "text" := PyStr hindi_text ]});
  datetime_now := Clock.Datetime 2024 3 1 10 15 30;
  os_fault := fun c =>
    match c with
    | Open path =>
        Some (OsFailure Permission
                ("[Errno 13] Permission denied: " ++ Str.repr path))
    | _ => None
    end
|}.

(** Silent audio: the pipeline returns the empty text. *)
Definition silent_world : World := {|
  cuda_is_available := false;
  pipeline_load := fun _ => None;
  pipeline_call := fun _ _ => inr (PyDict {[ "text" := PyStr EmptyString ]});
  datetime_now := Clock.Datetime 2024 3 1 10 15 30;
  os_fault := no_fault
|}.

(** A directory sits where the output file should go. *)
Definition blocked_files : gmap string node :=
  {[ "speech.wav" := File "RIFF";
     "transcribed" := Directory;
     scenario_output := Directory ]}.

(** The model files are missing: the loader raises [FileNotFoundError]. *)
Definition missing_model_world : World := {|
  cuda_is_available := true;
  pipeline_load := fun _ =>
    Some (Exn FileNotFoundErrorC
            "[Errno 2] No such file or directory: 'model.safetensors'");
  pipeline_call := fun _ _ => inr (PyDict ∅);
  datetime_now := Clock.Datetime 2024 3 1 10 15 30;
  os_fault := no_fault
|}.

(** A malformed result: the text field is [None]. *)
Definition none_text_world : World := {|
  cuda_is_available := false;
  pipeline_load := fun _ => None;
  pipeline_call := fun _ _ => inr (PyDict {[ "text" := PyNone ]});
  datetime_now := Clock.Datetime 2024 3 1 10 15 30;
  os_fault := no_fault
|}.

(** The disk is full: the file is created, the write is refused. *)
Definition full_disk_world : World := {|
  cuda_is_available := false;
  pipeline_load := fun _ => None;
  pipeline_call := fun _ _ => inr (PyDict {[ "text" := PyStr hindi_text ]});
  datetime_now := Clock.Datetime 2024 3 1 10 15 30;
  os_fault := fun c =>
    match c with
    | Write _ _ =>
        Some (OsFailure PlainOSError "[Errno 28] No space left on device")
    | _ => None
    end
|}.

(** The audio cannot be decoded: the pipeline raises [ValueError]. *)
Definition bad_codec_world : World := {|
  cuda_is_available := false;
  pipeline_load := fun _ => None;
  pipeline_call := fun _ _ =>
    inl (Exn ValueErrorC "Soundfile is either not in the correct format or is malformed.");
  datetime_now := Clock.Datetime 2024 3 1 10 15 30;
  os_fault := no_fault
|}.

(** ** The ways a run of [process_hindi_audio] ends *)

(** The folder step went through: the folder was there, or it was made. *)
Definition folder_made (w : World) (files files1 : gmap string node) : Prop :=
  (isdir files "transcribed" = true /\ files1 = files)
  \/ (files !! "transcribed" = None
      /\ os_fault w (Mkdir "transcribed") = None
      /\ files1 = <["transcribed" := Directory]> files).

(** What [os.makedirs] raises when the folder cannot be made. *)
Definition mkdir_error (w : World) (e : exn) : Prop :=
  match os_fault w (Mkdir "transcribed") with
  | Some f => e = os_raised f
  | None => e = os_error FileExistsErrorC "17" "File exists" "transcribed"
  end.

(** The output file can be opened for writing. *)
Definition can_open (w : World) (files : gmap string node) (p : string) : Prop :=
  os_fault w (Open (output_path w p)) = None
  /\ isdir files (output_path w p) = false.

(** What [open] raises when it cannot. *)
Definition open_error (w : World) (files : gmap string node) (p : string)
    (e : exn) : Prop :=
  match os_fault w (Open (output_path w p)) with
  | Some f => e = os_raised f
  | None =>
      isdir files (output_path w p) = true
      /\ e = os_error IsADirectoryErrorC "21" "Is a directory" (output_path w p)
  end.

(** The events of a run up to its [n]-th, when they do not depend on the
    text. *)
Definition progress (w : World) (p : string) (n : nat) : list event :=
  firstn n (saved_trace w p EmptyString).

(** The result and the final state of [process_hindi_audio], by the step
    at which the run ends. *)
Inductive run_ends (w : World) (p : string) (files : gmap string node) :
    exn + string -> state -> Prop :=
  | ends_not_found :
      isfile files p = false ->
      run_ends w p files
        (inl (Exn FileNotFoundErrorC
                ("The file '" ++ p ++ "' does not exist.")))
        (State files (progress w p 1))
  | ends_no_folder (e : exn) :
      isfile files p = true ->
      isdir files "transcribed" = false ->
      is_OSError (exn_cls e) = true ->
      mkdir_error w e ->
      run_ends w p files (inl e) (State files (progress w p 2))
  | ends_no_model (files1 : gmap string node) (e : exn) :
      isfile files p = true ->
      folder_made w files files1 ->
      pipeline_load w (the_pipeline w) = Some e ->
      run_ends w p files (inl e) (State files1 (progress w p 7))
  | ends_no_inference (files1 : gmap string node) (e : exn) :
      isfile files p = true ->
      folder_made w files files1 ->
      pipeline_load w (the_pipeline w) = None ->
      pipeline_call w (the_pipeline w) p = inl e ->
      run_ends w p files (inl e) (State files1 (progress w p 9))
  | ends_no_text (files1 : gmap string node) (result : pyval) (e : exn) :
      isfile files p = true ->
      folder_made w files files1 ->
      pipeline_load w (the_pipeline w) = None ->
      pipeline_call w (the_pipeline w) p = inr result ->
      subscript result "text" = inl e ->
      run_ends w p files (inl e) (State files1 (progress w p 9))
  | ends_no_open (files1 : gmap string node) (result v : pyval) (e : exn) :
      isfile files p = true ->
      folder_made w files files1 ->
      pipeline_load w (the_pipeline w) = None ->
      pipeline_call w (the_pipeline w) p = inr result ->
      subscript result "text" = inr v ->
      open_error w files p e ->
      run_ends w p files (inl e) (State files1 (progress w p 11))
  | ends_not_str (files1 : gmap string node) (result v : pyval) :
      isfile files p = true ->
      folder_made w files files1 ->
      pipeline_load w (the_pipeline w) = None ->
      pipeline_call w (the_pipeline w) p = inr result ->
      subscript result "text" = inr v ->
      (forall t, v <> PyStr t) ->
      can_open w files p ->
      run_ends w p files
        (inl (Exn TypeErrorC
                ("write() argument must be str, not "
                 ++ argument_type_name v)))
        (State (<[output_path w p := File EmptyString]> files1)
           (progress w p 11 ++ [EvClose (output_path w p)]))
  | ends_write_refused (files1 : gmap string node) (result : pyval)
        (t : string) (f : os_failure) :
      isfile files p = true ->
      folder_made w files files1 ->
      pipeline_load w (the_pipeline w) = None ->
      pipeline_call w (the_pipeline w) p = inr result ->
      subscript result "text" = inr (PyStr t) ->
      can_open w files p ->
      os_fault w (Write (output_path w p) t) = Some f ->
      run_ends w p files (inl (os_raised f))
        (State (<[output_path w p := File EmptyString]> files1)
           (firstn 13 (saved_trace w p t)))
  | ends_saved (files1 : gmap string node) (result : pyval) (t : string) :
      isfile files p = true ->
      folder_made w files files1 ->
      pipeline_load w (the_pipeline w) = None ->
      pipeline_call w (the_pipeline w) p = inr result ->
      subscript result "text" = inr (PyStr t) ->
      can_open w files p ->
      os_fault w (Write (output_path w p) t) = None ->
      run_ends w p files (inr (output_path w p))
        (State (<[output_path w p := File t]> files1)
           (firstn 13 (saved_trace w p t))).

(** What [datetime] guarantees of the values it builds, from the year 1000
    on, where [%Y] has four digits on every platform (the day is bounded by
    31 here, whatever the month). *)
Definition valid_datetime (d : Clock.datetime) : Prop :=
  (1000 <= Clock.year d <= 9999 /\ 1 <= Clock.month d <= 12 /\
   1 <= Clock.day d <= 31 /\ Clock.hour d < 24 /\ Clock.minute d < 60 /\
   Clock.second d < 60)%N.

(** Whether a node is a directory. *)
Definition is_directory (n : node) : bool :=
  match n with
  | Directory => true
  | File _ => false
  end.

(** The files after a run of the script. *)
Definition files_after (w : World) (prog : string) (argv : list string)
    (files : gmap string node) : gmap string node :=
  fs (snd (main w prog argv (boot files))).

(** The events of a run of the script. *)
Definition events_of (w : World) (prog : string) (argv : list string)
    (files : gmap string node) : list event :=
  trace (snd (main w prog argv (boot files))).

(** The exit status of a run of the script. *)
Definition status_of (w : World) (prog : string) (argv : list string)
    (files : gmap string node) : Z :=
  fst (main w prog argv (boot files)).

(** One second after the scenario, another recording and another text. *)
Definition later_text : string := "फिर मिलेंगे".

Definition later_world : World := {|
  cuda_is_available := false;
  pipeline_load := fun _ => None;
  pipeline_call := fun _ _ => inr (PyDict {[ "text" := PyStr later_text ]});
  datetime_now := Clock.Datetime 2024 3 1 10 15 31;
  os_fault := no_fault
|}.

(** A result without text field. *)
Definition no_text_world : World := {|
  cuda_is_available := false;
  pipeline_load := fun _ => None;
  pipeline_call := fun _ _ => inr (PyDict {[ "language" := PyStr "hi" ]});
  datetime_now := Clock.Datetime 2024 3 1 10 15 30;
  os_fault := no_fault
|}.

(** A regular file has the name of the folder. *)
Definition clashing_files : gmap string node :=
  {[ "speech.wav" := File "RIFF"; "transcribed" := File "notes" ]}.

(** * Properties *)

(** ** Strings and paths *)

Lemma ascii_eqb_eq (a b : ascii) : Str.ascii_eqb a b = true <-> a = b.
Proof. unfold Str.ascii_eqb. apply Ascii.eqb_eq. Qed.

Lemma split_components_have_no_sep (c : ascii) (s : string) :
  Forall (fun x => Str.contains_char c x = false) (Str.split c s).
Proof.
  induction s as [|a s IH]; simpl.
  - by repeat constructor.
  - destruct (Str.ascii_eqb a c) eqn:Hac.
    + by constructor.
    + destruct (Str.split c s) as [|x xs]; inversion IH; subst;
        constructor; simpl; try rewrite Hac; auto.
Qed.

Lemma last_Forall {A : Type} (P : A -> Prop) (l : list A) (d : A) :
  P d -> Forall P l -> P (List.last l d).
Proof.
  intros Hd Hl. induction Hl as [|x l Hx Hl IH]; simpl; [done|].
  destruct l; [done|]. exact IH.
Qed.

Lemma filter_Forall {A : Type} (P : A -> Prop) (f : A -> bool) (l : list A) :
  Forall P l -> Forall P (List.filter f l).
Proof.
  induction 1 as [|x l Hx Hl IH]; simpl; [constructor|].
  destruct (f x); [by constructor | done].
Qed.

Lemma name_has_no_sep (p : string) :
  Str.contains_char PosixPath.sep (PosixPath.name p) = false.
Proof.
  unfold PosixPath.name, PosixPath.parts.
  apply (last_Forall (fun x => Str.contains_char PosixPath.sep x = false)).
  - reflexivity.
  - apply filter_Forall, split_components_have_no_sep.
Qed.

Lemma take_has_no_char (c : ascii) (n : nat) (s : string) :
  Str.contains_char c s = false -> Str.contains_char c (Str.take n s) = false.
Proof.
  revert s. induction n as [|n IH]; intros [|a s]; simpl; try done.
  intros H. apply orb_false_iff in H as [Ha Hs].
  rewrite Ha. simpl. by apply IH.
Qed.

(** The stem of a path is a single component: it holds no separator. *)
Lemma stem_has_no_sep (p : string) :
  Str.contains_char PosixPath.sep (PosixPath.stem p) = false.
Proof.
  unfold PosixPath.stem. pose proof (name_has_no_sep p) as Hn.
  destruct (Str.rfind PosixPath.dot (PosixPath.name p)) as [i|]; [|done].
  destruct (_ && _); [|done]. by apply take_has_no_char.
Qed.

Lemma no_sep_not_absolute (a b : string) :
  Str.contains_char PosixPath.sep a = false ->
  Str.startswith (String PosixPath.sep EmptyString) (a ++ "-" ++ b) = false.
Proof.
  destruct a as [|c a]; simpl; [done|].
  intros H. apply orb_false_iff in H as [Hc _].
  replace (Str.ascii_eqb PosixPath.sep c) with (Str.ascii_eqb c PosixPath.sep)
    by apply Ascii.eqb_sym.
  by rewrite Hc.
Qed.

(** The output path of the script: [os.path.join] never replaces the
    folder, because the file name starts with a stem. *)
Lemma output_path_eq (p ts : string) :
  PosixPath.join "transcribed" (PosixPath.stem p ++ "-" ++ ts ++ ".txt")
  = "transcribed/" ++ PosixPath.stem p ++ "-" ++ ts ++ ".txt".
Proof.
  unfold PosixPath.join.
  rewrite (no_sep_not_absolute _ _ (stem_has_no_sep p)). reflexivity.
Qed.

Lemma output_path_is_not_the_folder (x : string) :
  "transcribed/" ++ x <> "transcribed".
Proof. simpl. discriminate. Qed.

(** ** The timestamp *)

Lemma digit_is_digit (n : N) : Clock.is_digit (Clock.digit n) = true.
Proof.
  unfold Clock.is_digit, Clock.digit.
  assert (n mod 10 < 10)%N as Hlt by (apply N.mod_lt; lia).
  destruct (n mod 10)%N as [|q] eqn:E; [reflexivity|].
  do 4 (destruct q as [q|q|]; try lia; try reflexivity).
Qed.


(** ** Running the script symbolically *)

Lemma folder_is_not_output_path (w : World) (p : string) :
  "transcribed" <> output_path w p.
Proof.
  intros H. symmetry in H. revert H. apply output_path_is_not_the_folder.
Qed.

Lemma output_path_is_not_folder (w : World) (p : string) :
  output_path w p <> "transcribed".
Proof. apply output_path_is_not_the_folder. Qed.

Lemma output_path_join (w : World) (p : string) :
  PosixPath.join "transcribed"
    (PosixPath.stem p ++ "-" ++ Clock.strftime (datetime_now w) ++ ".txt")
  = output_path w p.
Proof. apply output_path_eq. Qed.

Lemma os_error_class_is_OSError (k : os_error_kind) :
  is_OSError (os_error_class k) = true.
Proof. by destruct k. Qed.

Ltac unfold_script :=
  unfold main_try, process_hindi_audio, os_path_isfile, os_makedirs,
    os_mkdir, torch_cuda_is_available, pipeline, call_pipe,
    datetime_datetime_now, with_open_w, open_w, file_write, file_close,
    print, try_except, try_finally, bind, ret, raise, emit, get_files,
    put_file, lift, boot, isdir, os_raised, the_pipeline, the_device,
    with_folder in *;
  simpl in *;
  rewrite ?output_path_join in *.

(** One decision of the script, in the order of the source. *)
Ltac case_step :=
  match goal with
  | |- context [isfile ?f ?p] => destruct (isfile f p) eqn:?
  | |- context [os_fault ?w ?c] => destruct (os_fault w c) eqn:?
  | |- context [is_OSError (os_error_class ?k)] =>
      rewrite (os_error_class_is_OSError k)
  | |- context [<[ "transcribed" := ?n ]> ?f !! output_path ?w ?p] =>
      rewrite (lookup_insert_ne f "transcribed" (output_path w p) n
                 (folder_is_not_output_path w p))
  | |- context [<[ output_path ?w ?p := ?n ]> ?f !! "transcribed"] =>
      rewrite (lookup_insert_ne f (output_path w p) "transcribed" n
                 (output_path_is_not_folder w p))
  | |- context [<[ ?k := ?n ]> ?f !! ?k] => rewrite (lookup_insert_eq f k n)
  | |- context [@lookup string node (gmap string node) _ ?k ?m] =>
      is_var m;
      destruct (@lookup string node (gmap string node) _ k m) as [[?|]|] eqn:?
  | |- context [pipeline_load ?w ?a] => destruct (pipeline_load w a) eqn:?
  | |- context [pipeline_call ?w ?a ?p] => destruct (pipeline_call w a p) eqn:?
  | |- context [subscript ?v ?k] => destruct (subscript v k) as [?|[]] eqn:?
  end; simpl in *.

Ltac run_script :=
  unfold_script; repeat (case_step; simplify_eq/=); try done.

(** A trace that is written out does not hold an event it does not list. *)
Ltac absent_event H :=
  repeat (apply elem_of_cons in H as [H|H]; [discriminate H|]);
  by apply elem_of_nil in H.

(** ** The input check (C2) *)


(** ** The two handlers (C9) *)

Lemma main_reports_exception (w : World) (prog : string)
    (argv : list string) (p : string) (s : state) (e : exn) (s1 : state) :
  parse prog argv = Argparse.Parsed p ->
  process_hindi_audio w p s = (inl e, s1) ->
  main w prog argv s
  = (1%Z, State (fs s1) (trace s1 ++ [EvPrint (error_line e)])).
Proof.
  intros Hparse Hrun. unfold main, main_try. by rewrite Hparse, Hrun.
Qed.


(** The exceptions of the model loader and of the pipeline reach [main] as
    they are, also after the input passed validation. *)
Lemma load_failure_is_raised (w : World) (p : string)
    (files : gmap string node) (e : exn) :
  isfile files p = true ->
  isdir files "transcribed" = true ->
  pipeline_load w (the_pipeline w) = Some e ->
  fst (process_hindi_audio w p (boot files)) = inl e.
Proof.
  intros Hfile Hdir Hload. run_script.
Qed.

Lemma inference_failure_is_raised (w : World) (p : string)
    (files : gmap string node) (e : exn) :
  isfile files p = true ->
  isdir files "transcribed" = true ->
  pipeline_load w (the_pipeline w) = None ->
  pipeline_call w (the_pipeline w) p = inl e ->
  fst (process_hindi_audio w p (boot files)) = inl e.
Proof.
  intros Hfile Hdir Hload Hcall. run_script.
Qed.

(** ** Saving the transcription (C1, C8) *)

Lemma saved_main (w : World) (prog : string) (argv : list string)
    (files : gmap string node) (p t : string) :
  returns_text w prog argv files p t ->
  os_fault w (Open (output_path w p)) = None ->
  isdir files (output_path w p) = false ->
  os_fault w (Write (output_path w p) t) = None ->
  main w prog argv (boot files)
  = (0%Z, State (<[output_path w p := File t]> (with_folder files))
            (saved_trace w p t))
  /\ fst (process_hindi_audio w p (boot files)) = inr (output_path w p).
Proof.
  intros (Hparse & Hfile & Hreach & result & Hcall & Htext) Hopen Hnodir Hwrite.
  revert Hreach. unfold main, saved_trace, with_folder. rewrite Hparse.
  run_script; intros Hreach; try absent_event Hreach.
  all: by rewrite insert_insert_eq.
Qed.




(** The scenario of the specification, run. *)
Example scenario_run :
  main scenario_world script_name ["speech.wav"] (boot scenario_files)
  = (0%Z,
     State {[ "speech.wav" := File "RIFF";
              "transcribed" := Directory;
              scenario_output := File hindi_text ]}
       (saved_trace scenario_world "speech.wav" hindi_text)).
Proof. vm_compute. reflexivity. Qed.

Ltac in_trace := vm_compute; repeat first
  [ apply list_elem_of_here | apply list_elem_of_further ].

Ltac scenario_returns_text :=
  split; [reflexivity|]; split; [reflexivity|]; split; [in_trace|];
  eexists; split; reflexivity.





Example blocked_run :
  main silent_world script_name ["speech.wav"] (boot blocked_files)
  = (1%Z,
     State blocked_files
       (firstn 11 (saved_trace silent_world "speech.wav" EmptyString)
        ++ [EvPrint ("An error occurred during transcription: "
                     ++ "[Errno 21] Is a directory: "
                     ++ "'transcribed/speech-20240301-101530.txt'")])).
Proof. vm_compute. reflexivity. Qed.

(** ** Failures (C3) *)

Lemma no_file_written_refl (files : gmap string node) :
  no_file_written files files.
Proof. by intros q c H. Qed.

Lemma no_file_written_folder (files : gmap string node) (name : string) :
  no_file_written files (<[name := Directory]> files).
Proof.
  intros q c H. destruct (decide (name = q)) as [->|Hne].
  - by rewrite lookup_insert_eq in H.
  - by rewrite lookup_insert_ne in H.
Qed.

Ltac in_list := repeat first
  [ apply list_elem_of_here | apply list_elem_of_further ].

(** C3 (amended).  Every failure after the input check ends the run with
    status 1 and one more printed line that carries the description of the
    failure: the generic line, unless the exception is a
    [FileNotFoundError], which gets the [Error: ...] line.  When the run
    fails before the output file was opened (making the folder, loading
    the model, inference, a result without a text field, a refused
    [open]), no file is written. *)
Theorem failure_is_reported_and_leaves_no_file (w : World) (prog : string)
    (argv : list string) (p : string) (files : gmap string node)
    (e : exn) (s1 : state) :
  parse prog argv = Argparse.Parsed p ->
  isfile files p = true ->
  process_hindi_audio w p (boot files) = (inl e, s1) ->
  main w prog argv (boot files)
  = (1%Z, State (fs s1) (trace s1 ++ [EvPrint (error_line e)]))
  /\ (is_FileNotFoundError (exn_cls e) = false ->
      error_line e
      = "An error occurred during transcription: " ++ exn_str e)
  /\ (is_FileNotFoundError (exn_cls e) = true ->
      error_line e = "Error: " ++ exn_str e)
  /\ ((forall f, EvClose f ∉ trace s1) -> no_file_written files (fs s1)).
Proof.
  intros Hparse Hfile Hrun.
  split; [by apply (main_reports_exception w prog argv p)|].
  split; [by unfold error_line; intros ->|].
  split; [by unfold error_line; intros ->|].
  revert Hrun. run_script; intros Hrun Hclosed; simplify_eq/=;
    first [ apply no_file_written_refl
          | apply no_file_written_folder
          | exfalso; eapply Hclosed; in_list ].
Qed.

Lemma failure_is_reported_and_leaves_no_file_witness :
  parse script_name ["speech.wav"] = Argparse.Parsed "speech.wav"
  /\ isfile scenario_files "speech.wav" = true
  /\ process_hindi_audio bad_codec_world "speech.wav" (boot scenario_files)
     = (inl (Exn ValueErrorC
               "Soundfile is either not in the correct format or is malformed."),
        State (<["transcribed" := Directory]> scenario_files)
          (firstn 9 (saved_trace bad_codec_world "speech.wav" EmptyString)))
  /\ fst (main bad_codec_world script_name ["speech.wav"] (boot scenario_files))
     = 1%Z.
Proof.
  assert (parse script_name ["speech.wav"] = Argparse.Parsed "speech.wav")
    as H1 by reflexivity.
  assert (isfile scenario_files "speech.wav" = true) as H2 by reflexivity.
  assert (process_hindi_audio bad_codec_world "speech.wav" (boot scenario_files)
          = (inl (Exn ValueErrorC
               "Soundfile is either not in the correct format or is malformed."),
             State (<["transcribed" := Directory]> scenario_files)
               (firstn 9 (saved_trace bad_codec_world "speech.wav" EmptyString))))
    as H3 by (vm_compute; reflexivity).
  split; [exact H1|]. split; [exact H2|]. split; [exact H3|].
  pose proof (failure_is_reported_and_leaves_no_file bad_codec_world
                script_name ["speech.wav"] "speech.wav" scenario_files
                _ _ H1 H2 H3) as [Hmain _].
  rewrite Hmain. reflexivity.
Defined.

(** The unconditional reading fails three times: a [FileNotFoundError] of
    the model loader is printed with the [Error: ...] line; a write that
    the system refuses, and a text field that is not a string, fail after
    [open] created the file, which stays behind empty. *)
Lemma not_every_failure_is_generic_and_clean :
  ~ fails_generically missing_model_world script_name ["speech.wav"]
      scenario_files
  /\ ~ fails_generically full_disk_world script_name ["speech.wav"]
         scenario_files
  /\ ~ fails_generically none_text_world script_name ["speech.wav"]
         scenario_files.
Proof.
  split; [|split]; intros H.
  - edestruct (H "speech.wav") as [Hmain _];
      [reflexivity | reflexivity | vm_compute; reflexivity |].
    vm_compute in Hmain. discriminate Hmain.
  - edestruct (H "speech.wav") as [_ Hclean];
      [reflexivity | reflexivity | vm_compute; reflexivity |].
    specialize (Hclean scenario_output EmptyString).
    vm_compute in Hclean. specialize (Hclean eq_refl). discriminate Hclean.
  - edestruct (H "speech.wav") as [_ Hclean];
      [reflexivity | reflexivity | vm_compute; reflexivity |].
    specialize (Hclean scenario_output EmptyString).
    vm_compute in Hclean. specialize (Hclean eq_refl). discriminate Hclean.
Qed.

Example full_disk_run :
  main full_disk_world script_name ["speech.wav"] (boot scenario_files)
  = (1%Z,
     State (<[scenario_output := File EmptyString]>
              (<["transcribed" := Directory]> scenario_files))
       (firstn 13 (saved_trace full_disk_world "speech.wav" hindi_text)
        ++ [EvPrint ("An error occurred during transcription: "
                     ++ "[Errno 28] No space left on device")])).
Proof. vm_compute. reflexivity. Qed.

Example missing_model_run :
  main missing_model_world script_name ["speech.wav"] (boot scenario_files)
  = (1%Z,
     State (<["transcribed" := Directory]> scenario_files)
       (firstn 7 (saved_trace missing_model_world "speech.wav" EmptyString)
        ++ [EvPrint
              "Error: [Errno 2] No such file or directory: 'model.safetensors'"])).
Proof. vm_compute. reflexivity. Qed.

Example none_text_run :
  main none_text_world script_name ["speech.wav"] (boot scenario_files)
  = (1%Z,
     State (<[scenario_output := File EmptyString]>
              (<["transcribed" := Directory]> scenario_files))
       (firstn 11 (saved_trace none_text_world "speech.wav" EmptyString)
        ++ [EvClose scenario_output;
            EvPrint ("An error occurred during transcription: "
                     ++ "write() argument must be str, not None")])).
Proof. vm_compute. reflexivity. Qed.

(** ** The order of the steps (C4) *)




(** ** The pipeline and the device (C5, C6) *)

Ltac find_event H :=
  repeat (apply elem_of_cons in H as [H|H]; [try discriminate H|]);
  try (by apply elem_of_nil in H).

(** C5.  A run that calls the pipeline has built it exactly once before,
    for the task [automatic-speech-recognition], the model
    [vasista22/whisper-hindi-large-v2], chunks of 30 seconds and the
    selected device, and calls it once, on the audio path. *)
Theorem pipeline_is_built_once_and_called_on_the_input (w : World)
    (prog : string) (argv : list string) (files : gmap string node)
    (args : pipeline_args) (audio : string) :
  EvPipelineCall args audio ∈ trace (snd (main w prog argv (boot files))) ->
  parse prog argv = Argparse.Parsed audio
  /\ args = PipelineArgs "automatic-speech-recognition"
              "vasista22/whisper-hindi-large-v2" 30
              (if cuda_is_available w then "cuda" else "cpu")
  /\ List.filter is_pipeline_event
       (trace (snd (main w prog argv (boot files))))
     = [EvPipeline args; EvPipelineCall args audio].
Proof.
  unfold main. destruct (parse prog argv) as [p|text|text]; simpl.
  - run_script; intros H; find_event H; by simplify_eq/=.
  - intros H. find_event H.
  - intros H. find_event H.
Qed.

(** Whenever the pipeline is built, it is built once and for the fixed
    model, also in the runs in which building it fails. *)
Lemma pipeline_construction_is_fixed (w : World) (prog : string)
    (argv : list string) (files : gmap string node) (args : pipeline_args) :
  EvPipeline args ∈ trace (snd (main w prog argv (boot files))) ->
  args = the_pipeline w
  /\ List.filter (fun e => match e with EvPipeline _ => true | _ => false end)
       (trace (snd (main w prog argv (boot files))))
     = [EvPipeline args].
Proof.
  unfold main. destruct (parse prog argv) as [p|text|text]; simpl.
  - run_script; intros H; find_event H; by simplify_eq/=.
  - intros H. find_event H.
  - intros H. find_event H.
Qed.

(** C6.  A run that probes the device does so exactly once; the device is
    [cuda] when the probe says so and [cpu] otherwise, and it is the device
    that is printed and handed to the pipeline. *)
Theorem device_is_probed_once (w : World) (prog : string)
    (argv : list string) (files : gmap string node) :
  EvCudaIsAvailable ∈ trace (snd (main w prog argv (boot files))) ->
  List.filter is_probe (trace (snd (main w prog argv (boot files))))
  = [EvCudaIsAvailable]
  /\ EvPrint ("Using device: "
              ++ (if cuda_is_available w then "cuda" else "cpu"))
     ∈ trace (snd (main w prog argv (boot files)))
  /\ forall args,
       EvPipeline args ∈ trace (snd (main w prog argv (boot files))) ->
       device args = if cuda_is_available w then "cuda" else "cpu".
Proof.
  unfold main. destruct (parse prog argv) as [p|text|text]; simpl.
  - run_script; intros H; find_event H;
      (split; [reflexivity|]); (split; [in_list|]);
      intros args Hargs; find_event Hargs; by simplify_eq/=.
  - intros H. find_event H.
  - intros H. find_event H.
Qed.

(** ** The folder (C7) *)

Lemma existing_folder_is_kept (w : World) (name : string) (s : state) :
  isdir (fs s) name = true ->
  os_makedirs w name s
  = (inr tt, State (fs s) (trace s ++ [EvMakedirs name])).
Proof.
  intros Hdir. unfold os_makedirs, os_mkdir, try_except, bind, emit, raise,
    get_files, put_file, ret, os_raised, isdir in *. simpl.
  destruct (fs s !! name) as [[c|]|] eqn:Hn; try discriminate Hdir.
  destruct (os_fault w (Mkdir name)) as [f|]; cbn;
    rewrite ?os_error_class_is_OSError; cbn; rewrite Hn; cbn;
    by rewrite ?Hn.
Qed.

(** A run that got as far as the device probe leaves the folder behind. *)
Lemma probe_implies_folder (w : World) (prog : string) (argv : list string)
    (files : gmap string node) :
  EvCudaIsAvailable ∈ trace (snd (main w prog argv (boot files))) ->
  isdir (fs (snd (main w prog argv (boot files)))) "transcribed" = true.
Proof.
  unfold main. destruct (parse prog argv) as [p|text|text]; simpl.
  - run_script; intros H; find_event H; done.
  - intros H. find_event H.
  - intros H. find_event H.
Qed.

(** With the folder there, a run on an existing input reaches the probe:
    it does not fail at the folder. *)
Lemma folder_implies_probe (w : World) (prog : string) (argv : list string)
    (p : string) (files : gmap string node) :
  isdir files "transcribed" = true ->
  parse prog argv = Argparse.Parsed p ->
  isfile files p = true ->
  EvCudaIsAvailable ∈ trace (snd (main w prog argv (boot files))).
Proof.
  intros Hdir Hparse Hfile. unfold main. rewrite Hparse.
  run_script; in_list.
Qed.

(** C7.  Making the folder when it exists succeeds in every environment
    and changes no file; so a second invocation of the script, started on
    the files a first invocation left after it got past the folder, does
    not fail at the folder either. *)
Theorem folder_creation_is_idempotent :
  (forall (w : World) (name : string) (s : state),
     isdir (fs s) name = true ->
     os_makedirs w name s
     = (inr tt, State (fs s) (trace s ++ [EvMakedirs name])))
  /\ (forall (w1 w2 : World) (prog : string) (argv1 argv2 : list string)
        (p2 : string) (files : gmap string node),
        EvCudaIsAvailable ∈ trace (snd (main w1 prog argv1 (boot files))) ->
        parse prog argv2 = Argparse.Parsed p2 ->
        isfile (fs (snd (main w1 prog argv1 (boot files)))) p2 = true ->
        EvCudaIsAvailable
        ∈ trace (snd (main w2 prog argv2
                        (boot (fs (snd (main w1 prog argv1 (boot files)))))))).
Proof.
  split.
  - apply existing_folder_is_kept.
  - intros w1 w2 prog argv1 argv2 p2 files Hfirst Hparse Hfile.
    apply (folder_implies_probe w2 prog argv2 p2); [|done..].
    by apply probe_implies_folder.
Qed.

Lemma folder_creation_is_idempotent_witness :
  os_makedirs readonly_world "transcribed"
    (snd (main scenario_world script_name ["speech.wav"] (boot scenario_files)))
  = (inr tt,
     State (fs (snd (main scenario_world script_name ["speech.wav"]
                       (boot scenario_files))))
       (trace (snd (main scenario_world script_name ["speech.wav"]
                      (boot scenario_files)))
        ++ [EvMakedirs "transcribed"]))
  /\ EvCudaIsAvailable
     ∈ trace (snd (main silent_world script_name ["speech.wav"]
                     (boot (fs (snd (main scenario_world script_name
                                       ["speech.wav"] (boot scenario_files))))))).
Proof.
  split.
  - apply (proj1 folder_creation_is_idempotent). vm_compute. reflexivity.
  - apply (proj2 folder_creation_is_idempotent scenario_world silent_world
             script_name ["speech.wav"] ["speech.wav"] "speech.wav"
             scenario_files).
    + in_trace.
    + reflexivity.
    + vm_compute. reflexivity.
Defined.

(** ** The command line (C10) *)





Local Arguments Argparse.finish : simpl never.















Example help_run :
  main scenario_world script_name ["-h"] (boot scenario_files)
  = (0%Z, State scenario_files
            [EvArgparse Stdout
               (Argparse.format_help script_name description audio_file_help)]).
Proof. reflexivity. Qed.

Example no_argument_run :
  main scenario_world script_name [] (boot scenario_files)
  = (2%Z, State scenario_files
            [EvArgparse Stderr
               (Argparse.error_text script_name
                  "the following arguments are required: audio_file")]).
Proof. reflexivity. Qed.

Example extra_argument_run :
  main scenario_world script_name ["a.wav"; "b.wav"] (boot scenario_files)
  = (2%Z, State scenario_files
            [EvArgparse Stderr
               (Argparse.error_text script_name
                  "unrecognized arguments: b.wav")]).
Proof. reflexivity. Qed.

(** ** The contract at work on the scenarios *)




Lemma pipeline_is_built_once_and_called_on_the_input_witness :
  EvPipelineCall (the_pipeline scenario_world) "speech.wav"
    ∈ trace (snd (main scenario_world script_name ["speech.wav"]
                    (boot scenario_files)))
  /\ (parse script_name ["speech.wav"] = Argparse.Parsed "speech.wav"
      /\ the_pipeline scenario_world
         = PipelineArgs "automatic-speech-recognition"
             "vasista22/whisper-hindi-large-v2" 30
             (if cuda_is_available scenario_world then "cuda" else "cpu")
      /\ List.filter is_pipeline_event
           (trace (snd (main scenario_world script_name ["speech.wav"]
                          (boot scenario_files))))
         = [EvPipeline (the_pipeline scenario_world);
            EvPipelineCall (the_pipeline scenario_world) "speech.wav"]).
Proof.
  assert (EvPipelineCall (the_pipeline scenario_world) "speech.wav"
            ∈ trace (snd (main scenario_world script_name ["speech.wav"]
                            (boot scenario_files)))) as H by in_trace.
  split; [exact H|].
  exact (pipeline_is_built_once_and_called_on_the_input scenario_world
           script_name ["speech.wav"] scenario_files _ _ H).
Defined.

Lemma device_is_probed_once_witness :
  EvCudaIsAvailable
    ∈ trace (snd (main missing_model_world script_name ["speech.wav"]
                    (boot scenario_files)))
  /\ (List.filter is_probe
        (trace (snd (main missing_model_world script_name ["speech.wav"]
                       (boot scenario_files))))
      = [EvCudaIsAvailable]
      /\ EvPrint ("Using device: "
                  ++ (if cuda_is_available missing_model_world
                      then "cuda" else "cpu"))
         ∈ trace (snd (main missing_model_world script_name ["speech.wav"]
                         (boot scenario_files)))
      /\ forall args,
           EvPipeline args
             ∈ trace (snd (main missing_model_world script_name
                             ["speech.wav"] (boot scenario_files))) ->
           device args
           = if cuda_is_available missing_model_world then "cuda" else "cpu").
Proof.
  assert (EvCudaIsAvailable
            ∈ trace (snd (main missing_model_world script_name ["speech.wav"]
                            (boot scenario_files)))) as H by in_trace.
  split; [exact H|].
  exact (device_is_probed_once missing_model_world script_name
           ["speech.wav"] scenario_files H).
Defined.

(** ** The models of the libraries against CPython 3.11 *)

Example stems :
  map PosixPath.stem
    ["speech.wav"; "a/b/x.tar.gz"; ".bashrc"; "foo."; "/a/b/"; "a/./b.c/."; ".."]
  = ["speech"; "x.tar"; ".bashrc"; "foo."; "b"; "b"; ".."].
Proof. reflexivity. Qed.

Example parsed_command_lines :
  map Argparse.parse_known
    [["a"]; ["a"; "--"]; ["--"; "a"]; ["--"; "--"]; ["-1"]; ["-.5"];
     ["-x y"]; ["-"]]
  = map Argparse.Namespace ["a"; "a"; "a"; "--"; "-1"; "-.5"; "-x y"; "-"].
Proof. reflexivity. Qed.

Example help_command_lines :
  map Argparse.parse_known
    [["-h"]; ["--help"]; ["--he"]; ["-hh"]; ["-h=h"]; ["a"; "b"; "-h"];
     ["-x"; "-h"]; ["-5"; "-h"]]
  = repeat Argparse.Help 8.
Proof. reflexivity. Qed.

Example rejected_command_lines :
  map Argparse.parse_known
    [[]; ["--"]; ["-1."]; ["---"]; ["a"; "b"]; ["a"; "b"; "--"; "c"];
     ["a"; "--"; "c"]; ["-x"; "a"]; ["a"; "-x"; "--"]; ["a"; "-5"];
     ["-hx"]; ["--help=1"]; ["-h="]]
  = map Argparse.Error
      ["the following arguments are required: audio_file";
       "the following arguments are required: audio_file";
       "the following arguments are required: audio_file";
       "the following arguments are required: audio_file";
       "unrecognized arguments: b";
       "unrecognized arguments: b -- c";
       "unrecognized arguments: c";
       "unrecognized arguments: -x";
       "unrecognized arguments: -x --";
       "unrecognized arguments: -5";
       "argument -h/--help: ignored explicit argument 'x'";
       "argument -h/--help: ignored explicit argument '1'";
       "argument -h/--help: ignored explicit argument ''"].
Proof. reflexivity. Qed.

(** * Further properties of the script *)

(** ** Every run, by the step at which it ends *)

Ltac side_condition :=
  unfold folder_made, mkdir_error, open_error, can_open, isdir,
    the_pipeline, the_device, os_raised in *;
  repeat match goal with
         | H : ?x = _ |- context [?x] => rewrite H
         end;
  simpl; rewrite ?os_error_class_is_OSError;
  first [ done | by intros | eauto 8 ].

Ltac end_of_run :=
  rewrite ?insert_insert_eq;
  first
    [ solve [eapply ends_not_found; side_condition]
    | solve [eapply ends_no_folder; side_condition]
    | solve [eapply ends_no_model; side_condition]
    | solve [eapply ends_no_inference; side_condition]
    | solve [eapply ends_no_text; side_condition]
    | solve [eapply ends_no_open; side_condition]
    | match goal with
      | H : subscript _ "text" = inr ?x |- _ =>
          solve [eapply ends_not_str with (v := x); side_condition]
      end
    | solve [eapply ends_write_refused; side_condition]
    | solve [eapply ends_saved; side_condition] ].

Lemma process_run_ends (w : World) (p : string) (files : gmap string node) :
  run_ends w p files (fst (process_hindi_audio w p (boot files)))
    (snd (process_hindi_audio w p (boot files))).
Proof.
  run_script.
  all: end_of_run.
Qed.

(** ** More on strings, timestamps and output paths *)

Lemma append_cons (c : ascii) (a b : string) :
  String c a ++ b = String c (a ++ b).
Proof. reflexivity. Qed.

Lemma append_nil (b : string) : EmptyString ++ b = b.
Proof. reflexivity. Qed.

Lemma append_length (a b : string) :
  String.length (a ++ b) = (String.length a + String.length b)%nat.
Proof.
  induction a as [|c a IH]; rewrite ?append_nil, ?append_cons; simpl; [done|].
  by rewrite IH.
Qed.


Lemma append_inv_head (a x y : string) : a ++ x = a ++ y -> x = y.
Proof.
  induction a as [|c a IH]; rewrite ?append_nil, ?append_cons; [done|].
  intros [= H]. auto.
Qed.

Lemma append_eq_split (a b x y : string) :
  String.length a = String.length b -> a ++ x = b ++ y -> a = b /\ x = y.
Proof.
  revert b. induction a as [|c a IH]; intros [|d b];
    rewrite ?append_nil, ?append_cons; simpl; try done.
  intros [= Hlen] [= -> H]. destruct (IH b Hlen H) as [-> ->]. done.
Qed.

Lemma append_eq_split_r (a b x y : string) :
  String.length x = String.length y -> a ++ x = b ++ y -> a = b /\ x = y.
Proof.
  intros Hlen H. apply append_eq_split; [|done].
  apply (f_equal String.length) in H. rewrite !append_length in H. lia.
Qed.

Lemma contains_char_append (c : ascii) (a b : string) :
  Str.contains_char c (a ++ b)
  = Str.contains_char c a || Str.contains_char c b.
Proof.
  induction a as [|x a IH]; rewrite ?append_nil, ?append_cons; simpl; [done|].
  rewrite IH. by destruct (Str.ascii_eqb x c).
Qed.

Lemma digit_inj (n m : N) :
  Clock.digit n = Clock.digit m -> (n mod 10 = m mod 10)%N.
Proof.
  unfold Clock.digit. intros H. apply (f_equal N_of_ascii) in H.
  pose proof (N.mod_upper_bound n 10). pose proof (N.mod_upper_bound m 10).
  rewrite !N_ascii_embedding in H; lia.
Qed.

(** The facts of decimal division that [lia] needs about [a]. *)
Ltac decimal a :=
  pose proof (N.div_mod a 10 ltac:(lia));
  pose proof (N.mod_upper_bound a 10 ltac:(lia)).

Lemma four_digits_inj (a b : N) :
  (a < 10000 -> b < 10000 ->
   (a / 10 / 10 / 10) mod 10 = (b / 10 / 10 / 10) mod 10 ->
   (a / 10 / 10) mod 10 = (b / 10 / 10) mod 10 ->
   (a / 10) mod 10 = (b / 10) mod 10 ->
   a mod 10 = b mod 10 -> a = b)%N.
Proof.
  intros.
  decimal a; decimal (a / 10)%N; decimal (a / 10 / 10)%N;
    decimal (a / 10 / 10 / 10)%N.
  decimal b; decimal (b / 10)%N; decimal (b / 10 / 10)%N;
    decimal (b / 10 / 10 / 10)%N.
  lia.
Qed.

Lemma two_digits_inj (a b : N) :
  (a < 100 -> b < 100 ->
   (a / 10) mod 10 = (b / 10) mod 10 -> a mod 10 = b mod 10 -> a = b)%N.
Proof.
  intros. decimal a; decimal (a / 10)%N. decimal b; decimal (b / 10)%N. lia.
Qed.

Lemma digit_is_not (c : ascii) (n : N) :
  Clock.is_digit c = false -> Str.ascii_eqb (Clock.digit n) c = false.
Proof.
  intros Hc. destruct (Str.ascii_eqb (Clock.digit n) c) eqn:E; [|done].
  apply ascii_eqb_eq in E. subst c. by rewrite digit_is_digit in Hc.
Qed.

Lemma strftime_length (d : Clock.datetime) :
  String.length (Clock.strftime d) = 15%nat.
Proof. reflexivity. Qed.

(** A timestamp holds digits and one hyphen, nothing else. *)
Lemma strftime_has_no_other_char (c : ascii) (d : Clock.datetime) :
  Clock.is_digit c = false -> c <> "-"%char ->
  Str.contains_char c (Clock.strftime d) = false.
Proof.
  intros Hc Hdash. unfold Clock.strftime.
  cbv [Clock.dec_pad String.append Str.contains_char].
  rewrite !(digit_is_not c) by done.
  destruct (Str.ascii_eqb "-" c) eqn:E; [|done].
  apply ascii_eqb_eq in E. by subst c.
Qed.

Lemma strftime_inj (d1 d2 : Clock.datetime) :
  valid_datetime d1 -> valid_datetime d2 ->
  Clock.strftime d1 = Clock.strftime d2 -> d1 = d2.
Proof.
  destruct d1 as [y1 m1 a1 h1 i1 s1], d2 as [y2 m2 a2 h2 i2 s2].
  unfold valid_datetime, Clock.strftime. simpl.
  intros V1 V2. cbv [Clock.dec_pad String.append]. intros H.
  injection H as ?%digit_inj ?%digit_inj ?%digit_inj ?%digit_inj
    ?%digit_inj ?%digit_inj ?%digit_inj ?%digit_inj ?%digit_inj ?%digit_inj
    ?%digit_inj ?%digit_inj ?%digit_inj ?%digit_inj.
  f_equal;
    first [ apply four_digits_inj; (done || lia)
          | apply two_digits_inj; (done || lia) ].
Qed.

(** X6.  Distinct moments give distinct timestamps: on the values that
    [datetime] builds from the year 1000 on, [strftime("%Y%m%d-%H%M%S")]
    is injective: two
    moments that differ in any field are printed differently. *)
Theorem strftime_is_injective (d1 d2 : Clock.datetime) :
  valid_datetime d1 -> valid_datetime d2 ->
  d1 <> d2 -> Clock.strftime d1 <> Clock.strftime d2.
Proof. intros V1 V2 Hne H. by apply Hne, strftime_inj. Qed.

(** The name of the output file holds no separator. *)
Lemma output_name_has_no_sep (p ts : string) :
  Str.contains_char PosixPath.sep ts = false ->
  Str.contains_char PosixPath.sep (PosixPath.stem p ++ "-" ++ ts ++ ".txt")
  = false.
Proof.
  intros Hts. by rewrite !contains_char_append, stem_has_no_sep, Hts.
Qed.

Lemma output_path_shape (w : World) (p : string) :
  exists f, output_path w p = "transcribed/" ++ f
            /\ Str.contains_char PosixPath.sep f = false.
Proof.
  eexists. split; [reflexivity|].
  apply output_name_has_no_sep, strftime_has_no_other_char; done.
Qed.

(** Output paths that differ in the timestamp differ. *)
Lemma output_paths_differ (w1 w2 : World) (p1 p2 : string) :
  valid_datetime (datetime_now w1) -> valid_datetime (datetime_now w2) ->
  datetime_now w1 <> datetime_now w2 ->
  output_path w1 p1 <> output_path w2 p2.
Proof.
  intros V1 V2 Hne H. apply Hne, strftime_inj; [done..|].
  unfold output_path in H. apply append_inv_head in H.
  apply append_eq_split_r in H as [_ H].
  - apply (append_inv_head "-") in H.
    apply append_eq_split in H as [H _]; [done|].
    by rewrite !strftime_length.
  - by rewrite !append_length, !strftime_length.
Qed.

(** ** The input path is never the output path *)

Lemma split_without_sep (c : ascii) (b : string) :
  Str.contains_char c b = false -> Str.split c b = [b].
Proof.
  induction b as [|x b IH]; simpl; [done|].
  intros [Hx Hb]%orb_false_iff. rewrite Hx, IH by done. done.
Qed.

Lemma split_is_not_nil (c : ascii) (s : string) : Str.split c s <> [].
Proof.
  destruct s as [|x s]; simpl; [done|].
  destruct (Str.ascii_eqb x c); [done|]. by destruct (Str.split c s).
Qed.

(** The last component of [a/b] is [b]. *)
Lemma split_last (c : ascii) (a b : string) :
  Str.contains_char c b = false ->
  Str.split c (a ++ String c b) = (Str.split c a ++ [b])%list.
Proof.
  intros Hb. induction a as [|x a IH]; rewrite ?append_nil, ?append_cons; simpl.
  - replace (Str.ascii_eqb c c) with true by (symmetry; by apply ascii_eqb_eq).
    by rewrite split_without_sep.
  - destruct (Str.ascii_eqb x c); rewrite IH; [done|].
    pose proof (split_is_not_nil c a). by destruct (Str.split c a).
Qed.

Lemma long_part_is_kept (x : string) :
  (2 <= String.length x)%nat -> PosixPath.kept_part x = true.
Proof.
  destruct x as [|a [|b r]]; simpl; try lia. intros _.
  unfold PosixPath.kept_part. simpl. by destruct (Ascii.eqb a ".").
Qed.

Lemma name_of_joined (a b : string) :
  Str.contains_char PosixPath.sep b = false ->
  PosixPath.kept_part b = true ->
  PosixPath.name (a ++ String PosixPath.sep b) = b.
Proof.
  intros Hb Hkept. unfold PosixPath.name, PosixPath.parts.
  rewrite split_last, List.filter_app by done. simpl. rewrite Hkept.
  apply last_last.
Qed.

Lemma rfind_absent (c : ascii) (s : string) :
  Str.contains_char c s = false -> Str.rfind c s = None.
Proof.
  induction s as [|x s IH]; simpl; [done|].
  intros [Hx Hs]%orb_false_iff. by rewrite IH, Hx.
Qed.

(** The last [c] of [s ++ c ++ t] is the one in the middle when [t] has
    none. *)
Lemma rfind_last (c : ascii) (s t : string) :
  Str.contains_char c t = false ->
  Str.rfind c (s ++ String c t) = Some (String.length s).
Proof.
  intros Ht. induction s as [|x s IH]; rewrite ?append_nil, ?append_cons; simpl.
  - rewrite rfind_absent by done.
    by replace (Str.ascii_eqb c c) with true by (symmetry; by apply ascii_eqb_eq).
  - by rewrite IH.
Qed.

Lemma take_append (s t : string) : Str.take (String.length s) (s ++ t) = s.
Proof.
  induction s as [|x s IH]; rewrite ?append_nil, ?append_cons; simpl.
  - by destruct t.
  - by rewrite IH.
Qed.

Lemma name_without_sep (b : string) :
  Str.contains_char PosixPath.sep b = false ->
  PosixPath.kept_part b = true ->
  PosixPath.name b = b.
Proof.
  intros Hb Hkept. unfold PosixPath.name, PosixPath.parts.
  rewrite split_without_sep by done. simpl. by rewrite Hkept.
Qed.

(** The stem of a name [<s>.<ext>], whatever dots [s] holds. *)
Lemma stem_of_name (n s ext : string) :
  n = s ++ String PosixPath.dot ext ->
  s <> EmptyString -> ext <> EmptyString ->
  Str.contains_char PosixPath.dot ext = false ->
  (match Str.rfind PosixPath.dot n with
   | Some i => if (0 <? i)%nat && (i <? String.length n - 1)%nat
               then Str.take i n else n
   | None => n
   end) = s.
Proof.
  intros -> Hs Hext Hdot. rewrite rfind_last by done.
  rewrite append_length. simpl.
  destruct s as [|x s]; [done|]. destruct ext as [|y ext]; [done|]. simpl.
  replace (S (String.length s)
           <? String.length s + S (S (String.length ext)) - 0)%nat
    with true by (symmetry; apply Nat.ltb_lt; lia).
  by rewrite take_append.
Qed.

Lemma stem_of_suffixed_name (a s ext : string) :
  Str.contains_char PosixPath.sep s = false ->
  s <> EmptyString ->
  Str.contains_char PosixPath.sep ext = false ->
  Str.contains_char PosixPath.dot ext = false ->
  ext <> EmptyString ->
  PosixPath.stem (a ++ String PosixPath.sep (s ++ String PosixPath.dot ext))
  = s
  /\ PosixPath.stem (s ++ String PosixPath.dot ext) = s.
Proof.
  intros Hs Hne Hsep Hdot Hext.
  assert (Str.contains_char PosixPath.sep (s ++ String PosixPath.dot ext)
          = false) as Hname.
  { rewrite contains_char_append, Hs. simpl. by rewrite Hsep. }
  assert (PosixPath.kept_part (s ++ String PosixPath.dot ext) = true) as Hkept.
  { apply long_part_is_kept. rewrite append_length.
    destruct s; [done|]. simpl. lia. }
  unfold PosixPath.stem. split.
  - rewrite name_of_joined by done. by apply (stem_of_name _ s ext).
  - rewrite name_without_sep by done. by apply (stem_of_name _ s ext).
Qed.

(** X14.  The stem drops the folders and the last suffix only: for a file
    name [<s>.<ext>] with a non-empty [s] and a non-empty [ext] without
    dot, alone or behind any folder path, the stem is [s]; dots inside [s]
    stay. *)
Theorem stem_drops_folders_and_last_suffix (a s ext : string) :
  Str.contains_char PosixPath.sep s = false ->
  s <> EmptyString ->
  Str.contains_char PosixPath.sep ext = false ->
  Str.contains_char PosixPath.dot ext = false ->
  ext <> EmptyString ->
  PosixPath.stem (a ++ String PosixPath.sep (s ++ String PosixPath.dot ext))
  = s
  /\ PosixPath.stem (s ++ String PosixPath.dot ext) = s.
Proof. apply stem_of_suffixed_name. Qed.

(** X15.  A name without suffix is its own stem: a name without dot, and
    a name whose only dot is the first character (a hidden file), alone or
    behind any folder path. *)
Theorem stem_of_a_name_without_suffix (a s : string) :
  Str.contains_char PosixPath.sep s = false ->
  Str.contains_char PosixPath.dot s = false ->
  s <> EmptyString ->
  PosixPath.stem (a ++ String PosixPath.sep s) = s
  /\ PosixPath.stem
       (a ++ String PosixPath.sep (String PosixPath.dot s))
     = String PosixPath.dot s.
Proof.
  intros Hsep Hdot Hne. unfold PosixPath.stem. split.
  - assert (PosixPath.kept_part s = true) as Hkept.
    { destruct s as [|x [|y s]];
        [done| |apply long_part_is_kept; simpl; lia].
      simpl in Hdot. apply orb_false_iff in Hdot as [Hx _].
      unfold Str.ascii_eqb in Hx. change PosixPath.dot with "."%char in Hx.
      unfold PosixPath.kept_part. simpl. by rewrite Hx. }
    rewrite name_of_joined by done. by rewrite rfind_absent.
  - assert (PosixPath.kept_part (String PosixPath.dot s) = true) as Hkept.
    { apply long_part_is_kept. destruct s; [done|]. simpl. lia. }
    assert (Str.contains_char PosixPath.sep (String PosixPath.dot s) = false)
      as Hname by (simpl; by rewrite Hsep).
    rewrite name_of_joined by done. simpl. by rewrite rfind_absent.
Qed.



(** ** What every run does to the files *)

Lemma main_of_parsed (w : World) (prog : string) (argv : list string)
    (p : string) (s : state) :
  parse prog argv = Argparse.Parsed p -> main w prog argv s = main_try w p s.
Proof. intros H. unfold main. by rewrite H. Qed.

(** Case analysis on the way the run of a parsed command line ends. *)
Ltac by_run_end w p files :=
  let Hrun := fresh "Hrun" in
  pose proof (process_run_ends w p files) as Hrun;
  unfold main_try;
  destruct (process_hindi_audio w p (boot files)) as [? ?];
  simpl in Hrun; destruct Hrun; simpl.

Lemma folder_made_with_folder (w : World) (files files1 : gmap string node) :
  folder_made w files files1 ->
  files1 = with_folder files /\ isdir files1 "transcribed" = true.
Proof.
  unfold with_folder. intros [[Hdir ->]|(Hnone & _ & ->)].
  - by rewrite Hdir.
  - unfold isdir. by rewrite Hnone, lookup_insert_eq.
Qed.


Lemma folder_made_keeps (w : World) (files files1 : gmap string node)
    (q : string) (n : node) :
  folder_made w files files1 -> files !! q = Some n -> files1 !! q = Some n.
Proof.
  intros [[_ ->]|(Hnone & _ & ->)] Hq; [done|].
  rewrite lookup_insert_ne; [done|]. intros <-. congruence.
Qed.



(** X3.  A run deletes nothing and never turns a directory into a file or
    a file into a directory: every path that existed before the run
    exists after it, with the same kind. *)
Theorem existing_paths_survive (w : World) (prog : string)
    (argv : list string) (files : gmap string node) (q : string) (n : node) :
  files !! q = Some n ->
  exists n', files_after w prog argv files !! q = Some n'
             /\ is_directory n' = is_directory n.
Proof.
  intros Hq. unfold files_after, main.
  destruct (parse prog argv) as [p|text|text] eqn:Hparse; [|by exists n..].
  by_run_end w p files;
    try (exists n; split; [first [done | by apply (folder_made_keeps w files)]
                          | done]).
  all: destruct (decide (output_path w p = q)) as [<-|Hne];
    [ rewrite lookup_insert_eq; eexists; split; [done|];
      match goal with H : can_open _ _ _ |- _ => destruct H as [_ Hdir] end;
      unfold isdir in Hdir; rewrite Hq in Hdir; by destruct n
    | rewrite lookup_insert_ne by done; exists n;
      split; [by apply (folder_made_keeps w files) | done] ].
Qed.


(** X1.  Whatever the input path, the only file a run opens lies directly
    in the folder [transcribed]: its path is [transcribed/] followed by a
    name without separator, and it is opened for writing as UTF-8. *)
Theorem opened_path_is_inside_the_folder (w : World) (prog : string)
    (argv : list string) (files : gmap string node)
    (path mode encoding : string) :
  EvOpen path mode encoding ∈ events_of w prog argv files ->
  exists f, path = "transcribed/" ++ f
            /\ Str.contains_char PosixPath.sep f = false
            /\ mode = "w" /\ encoding = "utf-8".
Proof.
  unfold events_of, main.
  destruct (parse prog argv) as [p|text|text] eqn:Hparse;
    [|intros Hin; find_event Hin..].
  by_run_end w p files; unfold progress, saved_trace; simpl;
    intros Hin; find_event Hin; simplify_eq/=;
    destruct (output_path_shape w p) as (name & Hname & Hsep);
    exists name; by rewrite <- Hname.
Qed.

(** X5.  Status 0 after a parsed command line means that the text was
    saved: the pipeline returned a result with a string as text field, the
    output file holds exactly that string, and the run is the successful
    one. *)
Theorem status_0_means_saved (w : World) (prog : string)
    (argv : list string) (p : string) (files : gmap string node) :
  parse prog argv = Argparse.Parsed p ->
  status_of w prog argv files = 0%Z ->
  exists result t,
    pipeline_call w (the_pipeline w) p = inr result
    /\ subscript result "text" = inr (PyStr t)
    /\ files_after w prog argv files !! output_path w p = Some (File t)
    /\ main w prog argv (boot files)
       = (0%Z, State (<[output_path w p := File t]> (with_folder files))
                 (saved_trace w p t)).
Proof.
  intros Hparse. unfold status_of, files_after.
  rewrite (main_of_parsed w prog argv p) by done.
  by_run_end w p files; try discriminate. intros _.
  match goal with H : folder_made _ _ _ |- _ =>
    apply folder_made_with_folder in H as [-> _] end.
  eexists _, _. repeat split; eauto. apply lookup_insert_eq.
Qed.

(** ** Two runs in a row *)

Lemma with_folder_other (files : gmap string node) (q : string) :
  q <> "transcribed" -> with_folder files !! q = files !! q.
Proof.
  intros Hq. unfold with_folder. destruct (isdir files "transcribed"); [done|].
  by rewrite lookup_insert_ne.
Qed.

Lemma files_after_saved (w : World) (prog : string) (argv : list string)
    (files : gmap string node) (p t : string) :
  returns_text w prog argv files p t ->
  can_open w files p ->
  os_fault w (Write (output_path w p) t) = None ->
  files_after w prog argv files
  = <[output_path w p := File t]> (with_folder files).
Proof.
  intros Hret [Hopen Hnodir] Hwrite. unfold files_after.
  by rewrite (proj1 (saved_main w prog argv files p t Hret Hopen Hnodir Hwrite)).
Qed.

(** X7.  Two successful runs at different moments keep both outputs: when
    a second run is started on the files the first run left, and the clock
    shows another second, the file of the first run is still there with
    its text beside the file of the second run. *)
Theorem later_run_keeps_the_earlier_file (w1 w2 : World) (prog : string)
    (argv1 argv2 : list string) (files : gmap string node)
    (p1 p2 t1 t2 : string) :
  returns_text w1 prog argv1 files p1 t1 ->
  can_open w1 files p1 ->
  os_fault w1 (Write (output_path w1 p1) t1) = None ->
  returns_text w2 prog argv2 (files_after w1 prog argv1 files) p2 t2 ->
  can_open w2 (files_after w1 prog argv1 files) p2 ->
  os_fault w2 (Write (output_path w2 p2) t2) = None ->
  valid_datetime (datetime_now w1) ->
  valid_datetime (datetime_now w2) ->
  datetime_now w1 <> datetime_now w2 ->
  files_after w2 prog argv2 (files_after w1 prog argv1 files)
    !! output_path w1 p1 = Some (File t1)
  /\ files_after w2 prog argv2 (files_after w1 prog argv1 files)
       !! output_path w2 p2 = Some (File t2).
Proof.
  intros Hret1 Hopen1 Hwrite1 Hret2 Hopen2 Hwrite2 V1 V2 Hne.
  rewrite (files_after_saved w2 prog argv2 _ p2 t2) by done.
  split; [|apply lookup_insert_eq].
  rewrite lookup_insert_ne
    by (intros E; by apply (output_paths_differ w1 w2 p1 p2)).
  rewrite with_folder_other by apply output_path_is_not_folder.
  rewrite (files_after_saved w1 prog argv1 files p1 t1) by done.
  apply lookup_insert_eq.
Qed.

(** ** Edge cases of a run *)

(** An error line is not the line that announces the folder. *)
Ltac wrong_line H :=
  injection H as H;
  unfold error_line, not_found_line, generic_line in H; simpl in H;
  repeat match type of H with
         | context [if ?b then _ else _] => destruct b
         end;
  discriminate H.

(** X8.  A result without the key [text] is a generic failure: [KeyError]
    is raised, the line printed is
    [An error occurred during transcription: 'text'], the status is 1 and
    no file is written. *)
Theorem missing_text_field_fails_generically (w : World) (prog : string)
    (argv : list string) (p : string) (files : gmap string node)
    (d : gmap string pyval) :
  parse prog argv = Argparse.Parsed p ->
  EvPipelineCall (the_pipeline w) p ∈ events_of w prog argv files ->
  pipeline_call w (the_pipeline w) p = inr (PyDict d) ->
  d !! "text" = None ->
  main w prog argv (boot files)
  = (1%Z, State (with_folder files)
            (progress w p 9
             ++ [EvPrint "An error occurred during transcription: 'text'"]))
  /\ no_file_written files (files_after w prog argv files).
Proof.
  intros Hparse Hreach Hcall Htext. revert Hreach.
  unfold events_of, files_after.
  rewrite (main_of_parsed w prog argv p) by done.
  by_run_end w p files; unfold progress, saved_trace; simpl;
    intros Hin; try (by find_event Hin); try congruence.
  all: match goal with
       | H : pipeline_call _ _ _ = inr ?r |- _ =>
           assert (r = PyDict d) as -> by congruence
       end.
  all: match goal with
       | H : subscript (PyDict _) _ = _ |- _ =>
           simpl in H; rewrite Htext in H; simplify_eq/=
       end.
  match goal with H : folder_made _ _ _ |- _ =>
    apply folder_made_with_folder in H as [-> _] end.
  split; [done|]. intros q c.
  unfold with_folder. destruct (isdir files "transcribed"); [done|].
  intros Hlook. destruct (decide ("transcribed" = q)) as [<-|Hq].
  - by rewrite lookup_insert_eq in Hlook.
  - by rewrite lookup_insert_ne in Hlook.
Qed.

(** X9.  A text field that is not a string fails in [write] with
    [TypeError], after [open] has created the output file: the file stays
    behind empty, it is closed, the generic line is printed and the status
    is 1. *)
Theorem text_that_is_not_a_string_leaves_an_empty_file (w : World)
    (prog : string) (argv : list string) (p : string)
    (files : gmap string node) (result v : pyval) :
  parse prog argv = Argparse.Parsed p ->
  EvPipelineCall (the_pipeline w) p ∈ events_of w prog argv files ->
  pipeline_call w (the_pipeline w) p = inr result ->
  subscript result "text" = inr v ->
  (forall t, v <> PyStr t) ->
  can_open w files p ->
  main w prog argv (boot files)
  = (1%Z,
     State (<[output_path w p := File EmptyString]> (with_folder files))
       (progress w p 11
        ++ [EvClose (output_path w p);
            EvPrint ("An error occurred during transcription: "
                     ++ "write() argument must be str, not "
                     ++ argument_type_name v)])).
Proof.
  intros Hparse Hreach Hcall Htext Hv [Hopen Hnodir]. revert Hreach.
  unfold events_of.
  rewrite (main_of_parsed w prog argv p) by done.
  by_run_end w p files; unfold progress, saved_trace; simpl;
    intros Hin; try (by find_event Hin); try congruence.
  all: try match goal with
           | H : open_error _ _ _ _ |- _ =>
               unfold open_error in H; rewrite Hopen in H;
               destruct H as [H _]; congruence
           end.
  all: match goal with
       | H : pipeline_call _ _ _ = inr ?r |- _ =>
           assert (r = result) as -> by congruence
       end.
  all: match goal with
       | H : subscript _ "text" = inr ?x |- _ =>
           assert (x = v) as E by congruence
       end.
  all: try (by destruct (Hv _ (eq_sym E))).
  subst. match goal with H : folder_made _ _ _ |- _ =>
    apply folder_made_with_folder in H as [-> _] end.
  done.
Qed.

(** X10.  [exist_ok] tolerates a directory only: when [transcribed] names
    a regular file, every run on an existing input stops at the folder
    with status 1, before the device is probed; the files are unchanged
    and the line printed carries the error of [mkdir]. *)
Theorem file_named_transcribed_stops_the_run (w : World) (prog : string)
    (argv : list string) (p : string) (files : gmap string node)
    (c : string) :
  parse prog argv = Argparse.Parsed p ->
  isfile files p = true ->
  files !! "transcribed" = Some (File c) ->
  exists e,
    mkdir_error w e
    /\ main w prog argv (boot files)
       = (1%Z, State files
                 [EvIsFile p; EvMakedirs "transcribed";
                  EvPrint (error_line e)]).
Proof.
  intros Hparse Hfile Hfolder.
  rewrite (main_of_parsed w prog argv p) by done.
  by_run_end w p files; try congruence; try by eexists.
  all: match goal with
       | H : folder_made _ _ _ |- _ =>
           destruct H as [[H _]|[H _]];
           [unfold isdir in H; rewrite Hfolder in H; discriminate H
           | congruence]
       end.
Qed.

(** X11.  The line [Transcription folder 'transcribed' is ready.] is
    truthful: in every run that prints it, [transcribed] is a directory
    when the run ends. *)
Theorem ready_line_is_truthful (w : World) (prog : string)
    (argv : list string) (files : gmap string node) :
  EvPrint "Transcription folder 'transcribed' is ready."
    ∈ events_of w prog argv files ->
  isdir (files_after w prog argv files) "transcribed" = true.
Proof.
  unfold events_of, files_after, main.
  destruct (parse prog argv) as [p|text|text] eqn:Hparse;
    [|intros Hin; find_event Hin..].
  by_run_end w p files; unfold progress, saved_trace; simpl;
    intros Hin.
  1,2: find_event Hin; wrong_line Hin.
  all: clear Hin; unfold isdir;
    rewrite ?(lookup_insert_ne _ _ _ _ (output_path_is_not_folder w p));
    match goal with H : folder_made _ _ _ |- _ =>
      by apply folder_made_with_folder in H as [_ H] end.
Qed.

(** ** The command lines that are accepted *)

Lemma parse_parsed (prog : string) (argv : list string) (v : string) :
  parse prog argv = Argparse.Parsed v
  <-> Argparse.parse_known argv = Argparse.Namespace v.
Proof.
  unfold parse, Argparse.parse_args.
  destruct (Argparse.parse_known argv); split; intros H; by simplify_eq.
Qed.


Lemma single_positional_is_parsed (v : string) (after : option (list string)) :
  Argparse.is_positional v = true -> v <> "--" ->
  after = None \/ after = Some [] ->
  Argparse.parse_known
    (v :: match after with Some l => "--" :: l | None => [] end)
  = Argparse.Namespace v.
Proof.
  intros Hpos Hv Hafter. unfold Argparse.parse_known, Argparse.is_positional in *.
  apply String.eqb_neq in Hv.
  destruct (Argparse.parse_optional v) as [msg|[t|]] eqn:Hopt; try done.
  destruct Hafter as [-> | ->]; simpl; by rewrite ?Hv, Hopt.
Qed.


Lemma plain_path_is_positional (p : string) :
  Str.startswith "-" p = false -> Argparse.is_positional p = true /\ p <> "--".
Proof.
  unfold Argparse.is_positional, Argparse.parse_optional.
  destruct p as [|c p]; simpl; [done|].
  change (Ascii.eqb "-" c) with (Str.ascii_eqb "-" c).
  replace (Str.ascii_eqb c Argparse.dash) with (Str.ascii_eqb "-" c)
    by apply Ascii.eqb_sym.
  destruct (Str.ascii_eqb "-" c) eqn:E; simpl; [done|]. intros _.
  split; [done|]. intros [= ->]. by vm_compute in E.
Qed.

(** X12.  Every path can be given to the script: a path that does not
    start with a hyphen as it is, and any path at all after [--].  The
    path is handed on unchanged. *)
Theorem every_path_can_be_given (prog : string) (p : string) :
  parse prog ["--"; p] = Argparse.Parsed p
  /\ (Str.startswith "-" p = false -> parse prog [p] = Argparse.Parsed p).
Proof.
  split; [reflexivity|]. intros [Hpos Hne]%plain_path_is_positional.
  apply parse_parsed. by apply (single_positional_is_parsed p None); [..|left].
Qed.

(** ** The confirmation line *)

(** A progress line or an error line is not the confirmation line. *)
Ltac not_saved_line H :=
  injection H as H;
  unfold saved_line, error_line, not_found_line, generic_line, the_device,
    model_id in H;
  repeat match type of H with
         | context [if ?b then _ else _] => destruct b
         end;
  cbv [String.append] in H; discriminate H.

(** X16.  The confirmation line is truthful: a run that prints
    [✓ Transcription saved to: <path>] ends with status 0, and [path] is
    the output path of the run and names a file that holds the text the
    pipeline returned. *)
Theorem confirmation_line_is_truthful (w : World) (prog : string)
    (argv : list string) (files : gmap string node) (path : string) :
  EvPrint (saved_line path) ∈ events_of w prog argv files ->
  status_of w prog argv files = 0%Z
  /\ exists p result t,
       parse prog argv = Argparse.Parsed p
       /\ path = output_path w p
       /\ pipeline_call w (the_pipeline w) p = inr result
       /\ subscript result "text" = inr (PyStr t)
       /\ files_after w prog argv files !! path = Some (File t).
Proof.
  unfold events_of, status_of, files_after, main.
  destruct (parse prog argv) as [p|text|text] eqn:Hparse;
    [|intros Hin; find_event Hin..].
  by_run_end w p files; unfold progress, saved_trace; simpl;
    intros Hin; find_event Hin; try not_saved_line Hin.
  injection Hin as Hin. apply append_inv_head in Hin as ->.
  split; [done|]. eexists p, _, _. repeat split; eauto.
  apply lookup_insert_eq.
Qed.

(** ** The further properties at work on the scenarios *)

Ltac concrete := first [reflexivity | vm_compute; reflexivity].

Lemma opened_path_is_inside_the_folder_witness :
  EvOpen scenario_output "w" "utf-8"
    ∈ events_of scenario_world script_name ["speech.wav"] scenario_files
  /\ exists f, scenario_output = "transcribed/" ++ f
               /\ Str.contains_char PosixPath.sep f = false
               /\ "w" = "w" /\ "utf-8" = "utf-8".
Proof.
  assert (EvOpen scenario_output "w" "utf-8"
            ∈ events_of scenario_world script_name ["speech.wav"]
                scenario_files) as H1 by in_trace.
  split; [exact H1|].
  exact (opened_path_is_inside_the_folder scenario_world script_name
           ["speech.wav"] scenario_files scenario_output "w" "utf-8" H1).
Defined.


Lemma existing_paths_survive_witness :
  scenario_files !! "speech.wav" = Some (File "RIFF")
  /\ exists n',
       files_after scenario_world script_name ["speech.wav"] scenario_files
         !! "speech.wav" = Some n'
       /\ is_directory n' = is_directory (File "RIFF").
Proof.
  assert (scenario_files !! "speech.wav" = Some (File "RIFF")) as H1
    by concrete.
  split; [exact H1|].
  exact (existing_paths_survive scenario_world script_name ["speech.wav"]
           scenario_files "speech.wav" (File "RIFF") H1).
Defined.


Lemma status_0_means_saved_witness :
  parse script_name ["speech.wav"] = Argparse.Parsed "speech.wav"
  /\ status_of scenario_world script_name ["speech.wav"] scenario_files = 0%Z
  /\ exists result t,
       pipeline_call scenario_world (the_pipeline scenario_world) "speech.wav"
       = inr result
       /\ subscript result "text" = inr (PyStr t)
       /\ files_after scenario_world script_name ["speech.wav"] scenario_files
            !! output_path scenario_world "speech.wav" = Some (File t)
       /\ main scenario_world script_name ["speech.wav"] (boot scenario_files)
          = (0%Z,
             State (<[output_path scenario_world "speech.wav" := File t]>
                      (with_folder scenario_files))
               (saved_trace scenario_world "speech.wav" t)).
Proof.
  assert (parse script_name ["speech.wav"] = Argparse.Parsed "speech.wav")
    as H1 by reflexivity.
  assert (status_of scenario_world script_name ["speech.wav"] scenario_files
          = 0%Z) as H2 by concrete.
  split; [exact H1|]. split; [exact H2|].
  exact (status_0_means_saved scenario_world script_name ["speech.wav"]
           "speech.wav" scenario_files H1 H2).
Defined.

Lemma strftime_is_injective_witness :
  valid_datetime (datetime_now scenario_world)
  /\ valid_datetime (datetime_now later_world)
  /\ datetime_now scenario_world <> datetime_now later_world
  /\ Clock.strftime (datetime_now scenario_world)
     <> Clock.strftime (datetime_now later_world).
Proof.
  assert (valid_datetime (datetime_now scenario_world)) as H1
    by (unfold valid_datetime; simpl; lia).
  assert (valid_datetime (datetime_now later_world)) as H2
    by (unfold valid_datetime; simpl; lia).
  assert (datetime_now scenario_world <> datetime_now later_world) as H3
    by discriminate.
  split; [exact H1|]. split; [exact H2|]. split; [exact H3|].
  exact (strftime_is_injective (datetime_now scenario_world)
           (datetime_now later_world) H1 H2 H3).
Defined.

Lemma later_run_keeps_the_earlier_file_witness :
  returns_text scenario_world script_name ["speech.wav"] scenario_files
    "speech.wav" hindi_text
  /\ can_open scenario_world scenario_files "speech.wav"
  /\ os_fault scenario_world
       (Write (output_path scenario_world "speech.wav") hindi_text) = None
  /\ returns_text later_world script_name ["speech.wav"]
       (files_after scenario_world script_name ["speech.wav"] scenario_files)
       "speech.wav" later_text
  /\ can_open later_world
       (files_after scenario_world script_name ["speech.wav"] scenario_files)
       "speech.wav"
  /\ os_fault later_world
       (Write (output_path later_world "speech.wav") later_text) = None
  /\ valid_datetime (datetime_now scenario_world)
  /\ valid_datetime (datetime_now later_world)
  /\ datetime_now scenario_world <> datetime_now later_world
  /\ (files_after later_world script_name ["speech.wav"]
        (files_after scenario_world script_name ["speech.wav"] scenario_files)
        !! output_path scenario_world "speech.wav" = Some (File hindi_text)
      /\ files_after later_world script_name ["speech.wav"]
           (files_after scenario_world script_name ["speech.wav"]
              scenario_files)
           !! output_path later_world "speech.wav" = Some (File later_text)).
Proof.
  assert (returns_text scenario_world script_name ["speech.wav"]
            scenario_files "speech.wav" hindi_text) as H1
    by scenario_returns_text.
  assert (can_open scenario_world scenario_files "speech.wav") as H2
    by (split; concrete).
  assert (os_fault scenario_world
            (Write (output_path scenario_world "speech.wav") hindi_text)
          = None) as H3 by reflexivity.
  assert (returns_text later_world script_name ["speech.wav"]
            (files_after scenario_world script_name ["speech.wav"]
               scenario_files) "speech.wav" later_text) as H4
    by (split; [reflexivity|]; split; [concrete|]; split; [in_trace|];
        eexists; split; reflexivity).
  assert (can_open later_world
            (files_after scenario_world script_name ["speech.wav"]
               scenario_files) "speech.wav") as H5
    by (split; concrete).
  assert (os_fault later_world
            (Write (output_path later_world "speech.wav") later_text)
          = None) as H6 by reflexivity.
  assert (valid_datetime (datetime_now scenario_world)) as H7
    by (unfold valid_datetime; simpl; lia).
  assert (valid_datetime (datetime_now later_world)) as H8
    by (unfold valid_datetime; simpl; lia).
  assert (datetime_now scenario_world <> datetime_now later_world) as H9
    by discriminate.
  split; [exact H1|]. split; [exact H2|]. split; [exact H3|].
  split; [exact H4|]. split; [exact H5|]. split; [exact H6|].
  split; [exact H7|]. split; [exact H8|]. split; [exact H9|].
  exact (later_run_keeps_the_earlier_file scenario_world later_world
           script_name ["speech.wav"] ["speech.wav"] scenario_files
           "speech.wav" "speech.wav" hindi_text later_text
           H1 H2 H3 H4 H5 H6 H7 H8 H9).
Defined.

Lemma missing_text_field_fails_generically_witness :
  parse script_name ["speech.wav"] = Argparse.Parsed "speech.wav"
  /\ EvPipelineCall (the_pipeline no_text_world) "speech.wav"
       ∈ events_of no_text_world script_name ["speech.wav"] scenario_files
  /\ pipeline_call no_text_world (the_pipeline no_text_world) "speech.wav"
     = inr (PyDict {[ "language" := PyStr "hi" ]})
  /\ ({[ "language" := PyStr "hi" ]} : gmap string pyval) !! "text" = None
  /\ (main no_text_world script_name ["speech.wav"] (boot scenario_files)
      = (1%Z, State (with_folder scenario_files)
                (progress no_text_world "speech.wav" 9
                 ++ [EvPrint
                       "An error occurred during transcription: 'text'"]))
      /\ no_file_written scenario_files
           (files_after no_text_world script_name ["speech.wav"]
              scenario_files)).
Proof.
  assert (parse script_name ["speech.wav"] = Argparse.Parsed "speech.wav")
    as H1 by reflexivity.
  assert (EvPipelineCall (the_pipeline no_text_world) "speech.wav"
            ∈ events_of no_text_world script_name ["speech.wav"]
                scenario_files) as H2 by in_trace.
  assert (pipeline_call no_text_world (the_pipeline no_text_world)
            "speech.wav"
          = inr (PyDict {[ "language" := PyStr "hi" ]})) as H3
    by reflexivity.
  assert (({[ "language" := PyStr "hi" ]} : gmap string pyval) !! "text"
          = None) as H4 by concrete.
  split; [exact H1|]. split; [exact H2|]. split; [exact H3|].
  split; [exact H4|].
  exact (missing_text_field_fails_generically no_text_world script_name
           ["speech.wav"] "speech.wav" scenario_files
           {[ "language" := PyStr "hi" ]} H1 H2 H3 H4).
Defined.

Lemma text_that_is_not_a_string_leaves_an_empty_file_witness :
  parse script_name ["speech.wav"] = Argparse.Parsed "speech.wav"
  /\ EvPipelineCall (the_pipeline none_text_world) "speech.wav"
       ∈ events_of none_text_world script_name ["speech.wav"] scenario_files
  /\ pipeline_call none_text_world (the_pipeline none_text_world)
       "speech.wav"
     = inr (PyDict {[ "text" := PyNone ]})
  /\ subscript (PyDict {[ "text" := PyNone ]}) "text" = inr PyNone
  /\ (forall t, PyNone <> PyStr t)
  /\ can_open none_text_world scenario_files "speech.wav"
  /\ main none_text_world script_name ["speech.wav"] (boot scenario_files)
     = (1%Z,
        State (<[output_path none_text_world "speech.wav"
                 := File EmptyString]> (with_folder scenario_files))
          (progress none_text_world "speech.wav" 11
           ++ [EvClose (output_path none_text_world "speech.wav");
               EvPrint ("An error occurred during transcription: "
                        ++ "write() argument must be str, not "
                        ++ argument_type_name PyNone)])).
Proof.
  assert (parse script_name ["speech.wav"] = Argparse.Parsed "speech.wav")
    as H1 by reflexivity.
  assert (EvPipelineCall (the_pipeline none_text_world) "speech.wav"
            ∈ events_of none_text_world script_name ["speech.wav"]
                scenario_files) as H2 by in_trace.
  assert (pipeline_call none_text_world (the_pipeline none_text_world)
            "speech.wav"
          = inr (PyDict {[ "text" := PyNone ]})) as H3 by reflexivity.
  assert (subscript (PyDict {[ "text" := PyNone ]}) "text" = inr PyNone)
    as H4 by concrete.
  assert (forall t, PyNone <> PyStr t) as H5 by discriminate.
  assert (can_open none_text_world scenario_files "speech.wav") as H6
    by (split; concrete).
  split; [exact H1|]. split; [exact H2|]. split; [exact H3|].
  split; [exact H4|]. split; [exact H5|]. split; [exact H6|].
  exact (text_that_is_not_a_string_leaves_an_empty_file none_text_world
           script_name ["speech.wav"] "speech.wav" scenario_files
           (PyDict {[ "text" := PyNone ]}) PyNone H1 H2 H3 H4 H5 H6).
Defined.

Lemma file_named_transcribed_stops_the_run_witness :
  parse script_name ["speech.wav"] = Argparse.Parsed "speech.wav"
  /\ isfile clashing_files "speech.wav" = true
  /\ clashing_files !! "transcribed" = Some (File "notes")
  /\ exists e,
       mkdir_error scenario_world e
       /\ main scenario_world script_name ["speech.wav"] (boot clashing_files)
          = (1%Z, State clashing_files
                    [EvIsFile "speech.wav"; EvMakedirs "transcribed";
                     EvPrint (error_line e)]).
Proof.
  assert (parse script_name ["speech.wav"] = Argparse.Parsed "speech.wav")
    as H1 by reflexivity.
  assert (isfile clashing_files "speech.wav" = true) as H2 by concrete.
  assert (clashing_files !! "transcribed" = Some (File "notes")) as H3
    by concrete.
  split; [exact H1|]. split; [exact H2|]. split; [exact H3|].
  exact (file_named_transcribed_stops_the_run scenario_world script_name
           ["speech.wav"] "speech.wav" clashing_files "notes" H1 H2 H3).
Defined.

Lemma ready_line_is_truthful_witness :
  EvPrint "Transcription folder 'transcribed' is ready."
    ∈ events_of bad_codec_world script_name ["speech.wav"] scenario_files
  /\ isdir (files_after bad_codec_world script_name ["speech.wav"]
              scenario_files) "transcribed" = true.
Proof.
  assert (EvPrint "Transcription folder 'transcribed' is ready."
            ∈ events_of bad_codec_world script_name ["speech.wav"]
                scenario_files) as H1 by in_trace.
  split; [exact H1|].
  exact (ready_line_is_truthful bad_codec_world script_name ["speech.wav"]
           scenario_files H1).
Defined.

Lemma every_path_can_be_given_witness :
  Str.startswith "-" "speech.wav" = false
  /\ parse script_name ["--"; "-speech.wav"] = Argparse.Parsed "-speech.wav"
  /\ parse script_name ["speech.wav"] = Argparse.Parsed "speech.wav".
Proof.
  assert (Str.startswith "-" "speech.wav" = false) as H1 by reflexivity.
  split; [exact H1|]. split.
  - exact (proj1 (every_path_can_be_given script_name "-speech.wav")).
  - exact (proj2 (every_path_can_be_given script_name "speech.wav") H1).
Defined.


Lemma stem_drops_folders_and_last_suffix_witness :
  Str.contains_char PosixPath.sep "interview.final" = false
  /\ "interview.final" <> EmptyString
  /\ Str.contains_char PosixPath.sep "wav" = false
  /\ Str.contains_char PosixPath.dot "wav" = false
  /\ "wav" <> EmptyString
  /\ (PosixPath.stem
        ("recordings/2024"
         ++ String PosixPath.sep
              ("interview.final" ++ String PosixPath.dot "wav"))
      = "interview.final"
      /\ PosixPath.stem ("interview.final" ++ String PosixPath.dot "wav")
         = "interview.final").
Proof.
  assert (Str.contains_char PosixPath.sep "interview.final" = false) as H1
    by reflexivity.
  assert ("interview.final" <> EmptyString) as H2 by discriminate.
  assert (Str.contains_char PosixPath.sep "wav" = false) as H3
    by reflexivity.
  assert (Str.contains_char PosixPath.dot "wav" = false) as H4
    by reflexivity.
  assert ("wav" <> EmptyString) as H5 by discriminate.
  split; [exact H1|]. split; [exact H2|]. split; [exact H3|].
  split; [exact H4|]. split; [exact H5|].
  exact (stem_drops_folders_and_last_suffix "recordings/2024"
           "interview.final" "wav" H1 H2 H3 H4 H5).
Defined.

Lemma stem_of_a_name_without_suffix_witness :
  Str.contains_char PosixPath.sep "bashrc" = false
  /\ Str.contains_char PosixPath.dot "bashrc" = false
  /\ "bashrc" <> EmptyString
  /\ (PosixPath.stem ("home" ++ String PosixPath.sep "bashrc") = "bashrc"
      /\ PosixPath.stem
           ("home" ++ String PosixPath.sep (String PosixPath.dot "bashrc"))
         = String PosixPath.dot "bashrc").
Proof.
  assert (Str.contains_char PosixPath.sep "bashrc" = false) as H1
    by reflexivity.
  assert (Str.contains_char PosixPath.dot "bashrc" = false) as H2
    by reflexivity.
  assert ("bashrc" <> EmptyString) as H3 by discriminate.
  split; [exact H1|]. split; [exact H2|]. split; [exact H3|].
  exact (stem_of_a_name_without_suffix "home" "bashrc" H1 H2 H3).
Defined.

Lemma confirmation_line_is_truthful_witness :
  EvPrint (saved_line scenario_output)
    ∈ events_of scenario_world script_name ["speech.wav"] scenario_files
  /\ (status_of scenario_world script_name ["speech.wav"] scenario_files
      = 0%Z
      /\ exists p result t,
           parse script_name ["speech.wav"] = Argparse.Parsed p
           /\ scenario_output = output_path scenario_world p
           /\ pipeline_call scenario_world (the_pipeline scenario_world) p
              = inr result
           /\ subscript result "text" = inr (PyStr t)
           /\ files_after scenario_world script_name ["speech.wav"]
                scenario_files !! scenario_output = Some (File t)).
Proof.
  assert (EvPrint (saved_line scenario_output)
            ∈ events_of scenario_world script_name ["speech.wav"]
                scenario_files) as H1 by in_trace.
  split; [exact H1|].
  exact (confirmation_line_is_truthful scenario_world script_name
           ["speech.wav"] scenario_files scenario_output H1).
Defined.
